(** * Financial agent: report synthesis and task routing

    Shallow embedding of [app/api/v0/agents/financial_agent.py]:
    [FinancialAgent.analyze_financial_aspects], [receive_message],
    [health_check], [execute_automated_task], [perform_financial_review] and
    [perform_budget_adjustment].

    Python values are a tagged union [pyval]; dictionaries are association
    lists in insertion order; text is held as its UTF-8 bytes; floats are
    IEEE-754 binary64 numbers ([spec_float] with precision 53 and maximal
    exponent 1024); the three external effects (the chat-completion call,
    the clock and the writes to standard output) are the nodes of a small
    free monad [prog], exceptions its [Raise] leaves. *)

From Stdlib Require Import ZArith List String Ascii Bool Lia.
From Stdlib Require Import Decimal DecimalString SpecFloat.
From Stdlib Require Hexadecimal HexadecimalString.
Import ListNotations.

Local Open Scope string_scope.
Set Warnings "-register-all".

(* ================================================================== *)
(** ** Python values *)

Inductive pyval : Type :=
| PNone
| PBool (b : bool)
| PInt (z : Z)
| PFloat (x : spec_float)
| PStr (s : string)
| PList (l : list pyval)
| PDict (d : list (string * pyval)).

Definition dict := list (string * pyval).

(** [type(v).__name__] *)
Definition type_name (v : pyval) : string :=
  match v with
  | PNone => "NoneType"
  | PBool _ => "bool"
  | PInt _ => "int"
  | PFloat _ => "float"
  | PStr _ => "str"
  | PList _ => "list"
  | PDict _ => "dict"
  end.

(** [bool(v)], the test of [X if v else Y]. *)
Definition truthy (v : pyval) : bool :=
  match v with
  | PNone => false
  | PBool b => b
  | PInt z => negb (Z.eqb z 0)
  | PFloat (S754_zero _) => false
  | PFloat _ => true
  | PStr s => negb (String.eqb s "")
  | PList l => match l with [] => false | _ => true end
  | PDict d => match d with [] => false | _ => true end
  end.

(** Exceptions: the class name and [str(e)]. *)
Record exn : Type := mkExn { exc_class : string; exc_str : string }.

Definition quote : string := String "039"%char EmptyString.
Definition dquote : string := String "034"%char EmptyString.

Definition TypeError (msg : string) : exn := mkExn "TypeError" msg.
Definition ValueError (msg : string) : exn := mkExn "ValueError" msg.
Definition OverflowError (msg : string) : exn := mkExn "OverflowError" msg.
Definition AttributeError (msg : string) : exn := mkExn "AttributeError" msg.
Definition UnicodeEncodeError (msg : string) : exn :=
  mkExn "UnicodeEncodeError" msg.

(* ================================================================== *)
(** ** Dictionaries *)

Fixpoint dict_lookup (k : string) (d : dict) : option pyval :=
  match d with
  | [] => None
  | (k', v) :: tl => if String.eqb k k' then Some v else dict_lookup k tl
  end.

(** [d[k] = v]: an existing key keeps its position. *)
Fixpoint dict_set (k : string) (v : pyval) (d : dict) : dict :=
  match d with
  | [] => [(k, v)]
  | (k', v') :: tl =>
      if String.eqb k k' then (k', v) :: tl else (k', v') :: dict_set k v tl
  end.

(** A dict display [{k1: v1, ..., kn: vn}]: items are stored left to right. *)
Definition dict_literal (items : list (string * pyval)) : dict :=
  fold_left (fun d kv => dict_set (fst kv) (snd kv) d) items [].

(** [d.get(k, default)] on a dictionary. *)
Definition dict_get (d : dict) (k : string) (default : pyval) : pyval :=
  match dict_lookup k d with
  | Some v => v
  | None => default
  end.

Definition has_key (k : string) (v : pyval) : bool :=
  match v with
  | PDict d => match dict_lookup k d with Some _ => true | None => false end
  | _ => false
  end.

(** Navigation in a report: [v[k]] on dictionaries, [v[i]] on lists. *)
Inductive step : Type :=
| Key (k : string)
| Idx (i : nat).

Definition subscript (v : pyval) (s : step) : option pyval :=
  match s, v with
  | Key k, PDict d => dict_lookup k d
  | Idx i, PList l => nth_error l i
  | _, _ => None
  end.

Fixpoint at_path (p : list step) (v : pyval) : option pyval :=
  match p with
  | [] => Some v
  | s :: p' =>
      match subscript v s with
      | Some w => at_path p' w
      | None => None
      end
  end.

(* ================================================================== *)
(** ** Binary64 arithmetic and the [,.0f] format *)

Definition float_of_Z (z : Z) : spec_float := binary_normalize 53 1024 z 0 false.

(** The float literal [num/den] for a decimal literal with denominator a
    small power of ten: both operands are exact, and the division is
    correctly rounded, as the parsing of the literal is. *)
Definition float_lit (num den : Z) : spec_float :=
  SFdiv 53 1024 (float_of_Z num) (float_of_Z den).

Definition float_mul (x y : spec_float) : spec_float := SFmul 53 1024 x y.

(** The integer nearest to [m * 2^e], ties to even. *)
Definition round_half_even (m : positive) (e : Z) : Z :=
  match e with
  | Z0 => Zpos m
  | Zpos p => (Zpos m * 2 ^ Zpos p)%Z
  | Zneg p =>
      let d := (2 ^ Zpos p)%Z in
      let q := (Zpos m / d)%Z in
      let r := (Zpos m mod d)%Z in
      match Z.compare (2 * r) d with
      | Lt => q
      | Gt => (q + 1)%Z
      | Eq => if Z.even q then q else (q + 1)%Z
      end
  end.

(** Insert [","] after every third digit of a reversed digit list. *)
Fixpoint commas_rev (l : list ascii) : list ascii :=
  match l with
  | a :: b :: c :: ((_ :: _) as tl) => a :: b :: c :: ","%char :: commas_rev tl
  | _ => l
  end.

Definition group_thousands (digits : string) : string :=
  string_of_list_ascii
    (List.rev (commas_rev (List.rev (list_ascii_of_string digits)))).

Definition decimal_of_Z (z : Z) : string :=
  NilZero.string_of_int (Z.to_int z).

Definition sign_str (s : bool) : string := if s then "-" else "".

(** [format(x, ",.0f")] for a float [x]. *)
Definition format_comma0 (x : spec_float) : string :=
  match x with
  | S754_nan => "nan"
  | S754_infinity s => sign_str s ++ "inf"
  | S754_zero s => sign_str s ++ "0"
  | S754_finite s m e =>
      sign_str s ++ group_thousands (decimal_of_Z (round_half_even m e))
  end.

(* ================================================================== *)
(** ** Effects: the completion service, the clock, standard output,
    exceptions *)

(** The arguments of [openai.ChatCompletion.acreate]. *)
Record chat_request : Type := mkChat {
  chat_model : string;
  chat_system : string;
  chat_user : string;
  chat_max_tokens : Z;
  chat_temperature : spec_float
}.

(** What the service answers: the text of [response.choices[0].message.content],
    or the exception the awaited call (or the reading of the response) raises. *)
Inductive outcome : Type :=
| Completed (text : string)
| Failed (e : exn).

Inductive prog (A : Type) : Type :=
| Ret (a : A)
| Raise (e : exn)
| Chat (req : chat_request) (k : outcome -> prog A)
| Clock (k : string -> prog A)
| Stdout (line : string) (k : option exn -> prog A).

Arguments Ret {A} a.
Arguments Raise {A} e.
Arguments Chat {A} req k.
Arguments Clock {A} k.
Arguments Stdout {A} line k.

Fixpoint bind {A B : Type} (p : prog A) (f : A -> prog B) : prog B :=
  match p with
  | Ret a => f a
  | Raise e => Raise e
  | Chat req k => Chat req (fun o => bind (k o) f)
  | Clock k => Clock (fun t => bind (k t) f)
  | Stdout line k => Stdout line (fun o => bind (k o) f)
  end.

(** [try: p  except Exception as e: h e] *)
Fixpoint try_except {A : Type} (p : prog A) (h : exn -> prog A) : prog A :=
  match p with
  | Ret a => Ret a
  | Raise e => h e
  | Chat req k => Chat req (fun o => try_except (k o) h)
  | Clock k => Clock (fun t => try_except (k t) h)
  | Stdout line k => Stdout line (fun o => try_except (k o) h)
  end.

Notation "x <- c ;; k" := (bind c (fun x => k))
  (at level 61, c at next level, right associativity).

(** [(await openai.ChatCompletion.acreate(...)).choices[0].message.content] *)
Definition acreate (req : chat_request) : prog string :=
  Chat req (fun o =>
    match o with
    | Completed text => Ret text
    | Failed e => Raise e
    end).

(** [datetime.now().isoformat()] *)
Definition now_isoformat : prog string := Clock (fun t => Ret t).

(** [print(line)]: the line is written to standard output, and the write
    can raise (a text stream raises [UnicodeEncodeError] on a string it
    cannot encode). *)
Definition print (line : string) : prog unit :=
  Stdout line (fun o =>
    match o with
    | None => Ret tt
    | Some e => Raise e
    end).

(** The world a request runs in: what the service answers to each request,
    what the clock reads, and what writing a line to standard output raises,
    if anything. *)
Record world : Type := mkWorld {
  llm : chat_request -> outcome;
  now : string;
  stdout : string -> option exn
}.

Inductive result (A : Type) : Type :=
| Returned (a : A)
| Raised (e : exn).

Arguments Returned {A} a.
Arguments Raised {A} e.

(** Running a program: its result and the requests it sent, in order. *)
Fixpoint run {A : Type} (w : world) (p : prog A) : result A * list chat_request :=
  match p with
  | Ret a => (Returned a, [])
  | Raise e => (Raised e, [])
  | Chat req k => let (r, calls) := run w (k (llm w req)) in (r, req :: calls)
  | Clock k => run w (k (now w))
  | Stdout line k => run w (k (stdout w line))
  end.

Definition outcome_of {A : Type} (w : world) (p : prog A) : result A := fst (run w p).
Definition calls_of {A : Type} (w : world) (p : prog A) : list chat_request :=
  snd (run w p).

(** Displays whose items are evaluated left to right; the first exception
    escapes. *)
Fixpoint eval_items (items : list (string * prog pyval))
  : prog (list (string * pyval)) :=
  match items with
  | [] => Ret []
  | (k, c) :: tl => v <- c ;; vs <- eval_items tl ;; Ret ((k, v) :: vs)
  end.

Definition Dict_ (items : list (string * prog pyval)) : prog pyval :=
  vs <- eval_items items ;; Ret (PDict (dict_literal vs)).

Fixpoint eval_elems (elems : list (prog pyval)) : prog (list pyval) :=
  match elems with
  | [] => Ret []
  | c :: tl => v <- c ;; vs <- eval_elems tl ;; Ret (v :: vs)
  end.

Definition List_ (elems : list (prog pyval)) : prog pyval :=
  vs <- eval_elems elems ;; Ret (PList vs).

Definition str (s : string) : prog pyval := Ret (PStr s).

(* ================================================================== *)
(** ** Operations of the language that can raise *)

Definition int_to_float (z : Z) : prog spec_float :=
  match float_of_Z z with
  | S754_infinity _ => Raise (OverflowError "int too large to convert to float")
  | x => Ret x
  end.

(** [v * y] for a float [y]. *)
Definition py_mul_float (v : pyval) (y : spec_float) : prog spec_float :=
  match v with
  | PFloat x => Ret (float_mul x y)
  | PInt z => x <- int_to_float z ;; Ret (float_mul x y)
  | PBool b => x <- int_to_float (if b then 1 else 0) ;; Ret (float_mul x y)
  | PStr _ | PList _ =>
      Raise (TypeError ("can" ++ quote ++ "t multiply sequence by non-int of type "
                        ++ quote ++ "float" ++ quote))
  | PNone | PDict _ =>
      Raise (TypeError ("unsupported operand type(s) for *: " ++ quote
                        ++ type_name v ++ quote ++ " and " ++ quote ++ "float"
                        ++ quote))
  end.

(** [format(v, ",.0f")], the replacement field [{v:,.0f}]. *)
Definition py_format_comma0 (v : pyval) : prog string :=
  match v with
  | PFloat x => Ret (format_comma0 x)
  | PInt z => x <- int_to_float z ;; Ret (format_comma0 x)
  | PBool b => x <- int_to_float (if b then 1 else 0) ;; Ret (format_comma0 x)
  | PStr _ =>
      Raise (ValueError ("Unknown format code " ++ quote ++ "f" ++ quote
                         ++ " for object of type " ++ quote ++ "str" ++ quote))
  | PNone | PList _ | PDict _ =>
      Raise (TypeError ("unsupported format string passed to " ++ type_name v
                        ++ ".__format__"))
  end.

(** [v.get(k, default)]: only dictionaries have the method. *)
Definition py_get (v : pyval) (k : string) (default : pyval) : prog pyval :=
  match v with
  | PDict d => Ret (dict_get d k default)
  | _ =>
      Raise (AttributeError (quote ++ type_name v ++ quote
                             ++ " object has no attribute " ++ quote ++ "get"
                             ++ quote))
  end.

(** [v == s] for a string literal [s]. *)
Definition py_eq_str (v : pyval) (s : string) : bool :=
  match v with
  | PStr s' => String.eqb s' s
  | _ => false
  end.

(** The bytes [10xxxxxx], which continue a character of UTF-8 text. *)
Definition is_continuation (c : ascii) : bool :=
  ((128 <=? N_of_ascii c) && (N_of_ascii c <? 192))%N.

(** The characters of a text: each is a lead byte with the continuation
    bytes that follow it. *)
Definition continues (l : list ascii) : bool :=
  match l with
  | c :: _ => is_continuation c
  | [] => false
  end.

Fixpoint characters (l : list ascii) : list string :=
  match l with
  | [] => []
  | c :: tl =>
      match characters tl with
      | g :: gs =>
          if continues tl then String c g :: gs
          else String c EmptyString :: g :: gs
      | [] => [String c EmptyString]
      end
  end.

Definition chars (s : string) : list string :=
  characters (list_ascii_of_string s).

(** The items of [sep.join(...)] must all be strings. *)
Fixpoint join_items (i : nat) (l : list pyval) : prog (list string) :=
  match l with
  | [] => Ret []
  | PStr s :: tl => ss <- join_items (S i) tl ;; Ret (s :: ss)
  | v :: _ =>
      Raise (TypeError ("sequence item " ++ decimal_of_Z (Z.of_nat i)
                        ++ ": expected str instance, " ++ type_name v ++ " found"))
  end.

(** [sep.join(v)]: a list of strings, the characters of a string, or the keys
    of a dictionary. *)
Definition py_join (sep : string) (v : pyval) : prog string :=
  match v with
  | PList l => ss <- join_items 0 l ;; Ret (String.concat sep ss)
  | PStr s => Ret (String.concat sep (chars s))
  | PDict d => Ret (String.concat sep (map fst d))
  | _ => Raise (TypeError "can only join an iterable")
  end.

(** The float literals of the source. *)
Definition f0_8 := float_lit 8 10.
Definition f1_2 := float_lit 12 10.
Definition f1_8 := float_lit 18 10.
Definition f0_05 := float_lit 5 100.
Definition f0_08 := float_lit 8 100.
Definition f0_1 := float_lit 1 10.
Definition f0_4 := float_lit 4 10.
Definition f0_25 := float_lit 25 100.
Definition f0_15 := float_lit 15 100.
Definition f0_5 := float_lit 5 10.
Definition f0_02 := float_lit 2 100.
Definition f0_005 := float_lit 5 1000.
Definition f0_002 := float_lit 2 1000.
Definition f0_001 := float_lit 1 1000.
Definition f0_028 := float_lit 28 1000.
Definition f0_003 := float_lit 3 1000.
Definition f0_075 := float_lit 75 1000.
Definition f0_14 := float_lit 14 100.
Definition f0_75 := float_lit 75 100.
Definition f0_7 := float_lit 7 10.

(* ================================================================== *)
(** ** Messages of the HTTP surface *)

Record MCPMessage : Type := mkMessage {
  agent_type : string;
  business_data : dict;
  strategic_plan : dict;
  timestamp : string;
  request_id : string
}.

Record FinancialResponse : Type := mkResponse {
  resp_agent_type : string;
  financial_analysis : pyval;
  resp_timestamp : string;
  resp_request_id : string
}.

(** What the endpoint hands to the framework: the response model, or the
    [HTTPException] it raises. *)
Inductive http (A : Type) : Type :=
| Http200 (a : A)
| HTTPException (status_code : Z) (detail : string).

Arguments Http200 {A} a.
Arguments HTTPException {A} status_code detail.

(** The request as the endpoint sees it: what [await request.json()] gives,
    the parsed body or the exception of the parser. *)
Record Request : Type := mkRequest { json : exn + pyval }.

(* ================================================================== *)
(** ** The agent *)

Section Agent.

(** [repr] of floats, lists and dictionaries is the runtime's; the agent only
    interpolates it into text. *)
Variable py_repr : pyval -> string.

(** [str(v)], the replacement field [{v}]. *)
Definition py_str (v : pyval) : string :=
  match v with
  | PStr s => s
  | PNone => "None"
  | PBool true => "True"
  | PBool false => "False"
  | PInt z => decimal_of_Z z
  | PFloat _ | PList _ | PDict _ => py_repr v
  end.

(** [f"${v * y:,.0f}<suffix>"] *)
Definition usd (v : pyval) (y : spec_float) (suffix : string) : prog pyval :=
  x <- py_mul_float v y ;; Ret (PStr ("$" ++ format_comma0 x ++ suffix)).

(** [f"${v:,.0f}"] *)
Definition usd_plain (v : pyval) : prog pyval :=
  s <- py_format_comma0 v ;; Ret (PStr ("$" ++ s)).

(** [f"{v * y:,.0f} THB"] *)
Definition thb (v : pyval) (y : spec_float) : prog pyval :=
  x <- py_mul_float v y ;; Ret (PStr (format_comma0 x ++ " THB")).

(** [f"{v:,.0f} THB"] *)
Definition thb_plain (v : pyval) : prog pyval :=
  s <- py_format_comma0 v ;; Ret (PStr (s ++ " THB")).

Definition to_be_determined : string := "To be determined".

(** The prompt of [analyze_financial_aspects].  Its replacement fields are
    evaluated left to right; three of them can raise. *)
Definition analysis_prompt
  (business_name business_type location description target_market industry
   business_model initial_investment team_size growth_goals : pyval)
  (strategic_plan : dict) : prog string :=
  investment_text <- py_format_comma0 initial_investment ;;
  goals_text <- py_join ", " growth_goals ;;
  plan_goals <- py_get (dict_get strategic_plan "growth_strategy" (PDict []))
                  "short_term_goals" (PList []) ;;
  Ret ("
        As a financial consultant specializing in "
    ++ py_str business_type
    ++ " business finance, analyze the following business and provide financial recommendations:

        Business Information:
        - Name: "
    ++ py_str business_name
    ++ "
        - Type: "
    ++ py_str business_type
    ++ "
        - Location: "
    ++ py_str location
    ++ "
        - Description: "
    ++ py_str description
    ++ "
        - Target Market: "
    ++ py_str target_market
    ++ "
        - Industry: "
    ++ py_str industry
    ++ "
        - Business Model: "
    ++ py_str business_model
    ++ "
        - Initial Investment: $"
    ++ investment_text
    ++ dquote
    ++ " if initial_investment else "
    ++ dquote
    ++ "Not specified"
    ++ dquote
    ++ "
        - Team Size: "
    ++ py_str team_size
    ++ " employees"
    ++ dquote
    ++ " if team_size else "
    ++ dquote
    ++ "Not specified"
    ++ dquote
    ++ "
        - Growth Goals: "
    ++ goals_text
    ++ "
        
        Strategic Plan Context: "
    ++ py_str plan_goals
    ++ "

        Please provide financial analysis specifically tailored for this "
    ++ py_str business_type
    ++ " business in the "
    ++ py_str industry
    ++ " industry, including:

        1. Financial Projections and Forecasts:
           - Revenue projections (1-3 years)
           - Profit margin analysis
           - Growth trajectory

        2. Funding Requirements and Sources:
           - Initial capital requirements
           - Working capital needs
           - Funding sources and options

        3. Cost Structure Analysis:
           - Fixed and variable costs
           - Cost optimization strategies
           - Operational efficiency

        4. Pricing Strategy Recommendations:
           - Pricing models and strategies
           - Competitive pricing analysis
           - Value-based pricing opportunities

        5. Cash Flow Management:
           - Cash flow projections
           - Working capital management
           - Payment terms and cycles

        6. Investment Opportunities:
           - Growth investment options
           - ROI analysis
           - Payback periods

        7. Financial Risk Assessment:
           - Financial risks and mitigation
           - Contingency planning
           - Financial sustainability

        8. Break-even Analysis:
           - Break-even point calculation
           - Margin analysis
           - Profitability thresholds

        Focus on practical financial strategies for this "
    ++ py_str business_type
    ++ " business in the "
    ++ py_str industry
    ++ " industry.
        ").

Definition analysis_system (business_type industry : pyval) : string :=
  "You are an expert financial consultant specializing in " ++ py_str business_type
  ++ " business finance in the " ++ py_str industry
  ++ " industry. Provide specific, actionable financial recommendations tailored to this business type and industry.".

(** The dictionary built after a successful completion (the [try] body). *)
Definition full_report
  (business_name business_type industry initial_investment : pyval)
  (financial_analysis_text : string) : prog pyval :=
  let bt := py_str business_type in
  let ind := py_str industry in
  let tbd := str to_be_determined in
  Dict_ [
    ("business_name", Ret business_name);
    ("business_type", Ret business_type);
    ("financial_projections", Dict_ [
      ("revenue_forecast", Dict_ [
        ("year_1", if truthy initial_investment
                   then usd initial_investment f0_8 "" else tbd);
        ("year_2", if truthy initial_investment
                   then usd initial_investment f1_2 "" else tbd);
        ("year_3", if truthy initial_investment
                   then usd initial_investment f1_8 "" else tbd)
      ]);
      ("profit_margins", Dict_ [
        (bt ++ "_services", str "60-70%");
        (bt ++ "_products", str "50-60%");
        (bt ++ "_consulting", str "80-90%")
      ]);
      ("monthly_revenue_targets", Dict_ [
        ("month_1_6", if truthy initial_investment
                      then usd initial_investment f0_05 "" else tbd);
        ("month_7_12", if truthy initial_investment
                       then usd initial_investment f0_08 "" else tbd);
        ("year_2", if truthy initial_investment
                   then usd initial_investment f0_1 "" else tbd)
      ])
    ]);
    ("funding_requirements", Dict_ [
      ("initial_investment", Dict_ [
        (bt ++ "_equipment", if truthy initial_investment
                             then usd initial_investment f0_4 "" else tbd);
        (bt ++ "_facility", if truthy initial_investment
                            then usd initial_investment f0_25 "" else tbd);
        (bt ++ "_inventory", if truthy initial_investment
                             then usd initial_investment f0_1 "" else tbd);
        ("marketing", if truthy initial_investment
                      then usd initial_investment f0_15 "" else tbd);
        ("working_capital", if truthy initial_investment
                            then usd initial_investment f0_1 "" else tbd);
        ("total", if truthy initial_investment
                  then usd_plain initial_investment else tbd)
      ]);
      ("funding_sources", List_ [
        Dict_ [
          ("source", str "Personal savings");
          ("amount", if truthy initial_investment
                     then usd initial_investment f0_5 "" else tbd);
          ("percentage", str "50%")
        ];
        Dict_ [
          ("source", str "Bank loan");
          ("amount", if truthy initial_investment
                     then usd initial_investment f0_4 "" else tbd);
          ("percentage", str "40%")
        ];
        Dict_ [
          ("source", str "Investor/Partner");
          ("amount", if truthy initial_investment
                     then usd initial_investment f0_1 "" else tbd);
          ("percentage", str "10%")
        ]
      ])
    ]);
    ("cost_structure", Dict_ [
      ("fixed_costs", Dict_ [
        ("rent", if truthy initial_investment
                 then usd initial_investment f0_02 "/month" else tbd);
        ("utilities", if truthy initial_investment
                      then usd initial_investment f0_005 "/month" else tbd);
        ("insurance", if truthy initial_investment
                      then usd initial_investment f0_002 "/month" else tbd);
        ("licenses", if truthy initial_investment
                     then usd initial_investment f0_001 "/month" else tbd);
        ("total_fixed", if truthy initial_investment
                        then usd initial_investment f0_028 "/month" else tbd)
      ]);
      ("variable_costs", Dict_ [
        (bt ++ "_materials", str "25% of revenue");
        (bt ++ "_labor", str "30% of revenue");
        (bt ++ "_marketing", str "10% of revenue");
        (bt ++ "_overhead", str "15% of revenue");
        ("total_variable", str "80% of revenue")
      ])
    ]);
    ("pricing_strategy", Dict_ [
      (bt ++ "_pricing", Dict_ [
        ("basic_" ++ bt ++ "_service",
          if truthy initial_investment
          then usd initial_investment f0_001 "" else str "Market-based pricing");
        ("premium_" ++ bt ++ "_service",
          if truthy initial_investment
          then usd initial_investment f0_002 "" else str "Value-based pricing");
        (bt ++ "_consulting",
          if truthy initial_investment
          then usd initial_investment f0_005 "" else str "Hourly rate")
      ]);
      ("pricing_factors", List_ [
        str "Competitor analysis";
        str "Cost-plus pricing";
        str "Value-based pricing";
        str (bt ++ " market positioning")
      ])
    ]);
    ("cash_flow_management", Dict_ [
      ("daily_cash_flow", Dict_ [
        ("inflow", if truthy initial_investment
                   then usd initial_investment f0_003 "" else tbd);
        ("outflow", if truthy initial_investment
                    then usd initial_investment f0_002 "" else tbd);
        ("net", if truthy initial_investment
                then usd initial_investment f0_001 "" else tbd)
      ]);
      ("cash_reserves", str "Maintain 3-6 months of operating expenses");
      ("payment_terms", Dict_ [
        ("suppliers", str "Net 30 days");
        ("customers", str "Immediate payment");
        ("utilities", str "Monthly in advance")
      ])
    ]);
    ("investment_opportunities", List_ [
      Dict_ [
        ("opportunity", str (bt ++ " equipment upgrade"));
        ("investment", if truthy initial_investment
                       then usd initial_investment f0_15 "" else tbd);
        ("roi", str "15-20%");
        ("payback_period", str "18-24 months")
      ];
      Dict_ [
        ("opportunity", str (bt ++ " technology system"));
        ("investment", if truthy initial_investment
                       then usd initial_investment f0_075 "" else tbd);
        ("roi", str "25-30%");
        ("payback_period", str "12-18 months")
      ];
      Dict_ [
        ("opportunity", str (bt ++ " marketing campaign"));
        ("investment", if truthy initial_investment
                       then usd initial_investment f0_1 "" else tbd);
        ("roi", str "20-25%");
        ("payback_period", str "6-12 months")
      ]
    ]);
    ("financial_risks", Dict_ [
      ("market_risks", List_ [
        str ("Economic downturn affecting " ++ bt ++ " demand");
        str ("Changes in " ++ ind ++ " regulations");
        str ("New " ++ bt ++ " competitors entering the market")
      ]);
      ("operational_risks", List_ [
        str (bt ++ " staff turnover and training costs");
        str (bt ++ " equipment breakdowns");
        str (bt ++ " supply chain disruptions")
      ]);
      ("mitigation_strategies", List_ [
        str ("Diversify " ++ bt ++ " revenue streams");
        str "Build emergency fund";
        str ("Maintain good " ++ bt ++ " supplier relationships");
        str ("Invest in " ++ bt ++ " staff training and retention")
      ])
    ]);
    ("break_even_analysis", Dict_ [
      ("monthly_fixed_costs", if truthy initial_investment
                              then usd initial_investment f0_028 "" else tbd);
      ("average_contribution_margin", str "20%");
      ("break_even_revenue", if truthy initial_investment
                             then usd initial_investment f0_14 "/month" else tbd);
      ("break_even_timeframe", str "8-12 months")
    ]);
    ("financial_kpis", List_ [
      str "Daily sales revenue";
      str "Customer average transaction value";
      str "Cost of goods sold (COGS)";
      str "Gross profit margin";
      str "Net profit margin";
      str "Cash flow from operations";
      str "Return on investment (ROI)";
      str "Customer acquisition cost"
    ]);
    ("recommendations", List_ [
      str "Start with conservative financial projections and adjust based on actual performance";
      str "Maintain a cash reserve of at least 6 months of operating expenses";
      str "Implement cost control measures and regular financial monitoring";
      str "Consider multiple funding sources to reduce financial risk";
      str "Focus on high-margin products and efficient operations";
      str "Invest in technology to improve operational efficiency";
      str "Build strong relationships with suppliers for better payment terms";
      str "Regularly review and adjust pricing strategy based on market conditions"
    ]);
    ("ai_analysis", str financial_analysis_text)
  ].

(** The dictionary built by the [except] branch. *)
Definition fallback_report
  (business_name business_type initial_investment : pyval) : prog pyval :=
  let bt := py_str business_type in
  let tbd := str to_be_determined in
  Dict_ [
    ("business_name", Ret business_name);
    ("business_type", Ret business_type);
    ("financial_projections", Dict_ [
      ("revenue_forecast", Dict_ [
        ("year_1", if truthy initial_investment
                   then thb initial_investment f0_5 else tbd);
        ("year_2", if truthy initial_investment
                   then thb initial_investment f0_75 else tbd)
      ])
    ]);
    ("funding_requirements", Dict_ [
      ("initial_investment", Dict_ [
        ("total", if truthy initial_investment
                  then thb_plain initial_investment else tbd)
      ])
    ]);
    ("pricing_strategy", Dict_ [
      (bt ++ "_pricing", Dict_ [
        ("basic_" ++ bt ++ "_service", str "Market-based pricing");
        ("premium_" ++ bt ++ "_service", str "Value-based pricing");
        (bt ++ "_consulting", str "Hourly rate")
      ])
    ]);
    ("recommendations", List_ [
      str "Maintain cash reserves";
      str "Monitor costs closely";
      str ("Focus on high-margin " ++ bt ++ " products/services");
      str "Build supplier relationships"
    ])
  ].

Definition analyze_financial_aspects (business_data strategic_plan : dict)
  : prog pyval :=
  let business_name := dict_get business_data "business_name" (PStr "") in
  let business_type := dict_get business_data "business_type" (PStr "") in
  let location := dict_get business_data "location" (PStr "") in
  let description := dict_get business_data "description" (PStr "") in
  let target_market := dict_get business_data "target_market" (PStr "") in
  let growth_goals := dict_get business_data "growth_goals" (PList []) in
  let industry := dict_get business_data "industry" (PStr "") in
  let business_model := dict_get business_data "business_model" (PStr "") in
  let initial_investment := dict_get business_data "initial_investment" PNone in
  let team_size := dict_get business_data "team_size" PNone in
  prompt <- analysis_prompt business_name business_type location description
              target_market industry business_model initial_investment team_size
              growth_goals strategic_plan ;;
  try_except
    (financial_analysis_text <-
       acreate (mkChat "gpt-3.5-turbo" (analysis_system business_type industry)
                  prompt 1500 f0_7) ;;
     full_report business_name business_type industry initial_investment
       financial_analysis_text)
    (fun e => fallback_report business_name business_type initial_investment).

(* ------------------------------------------------------------------ *)
(** *** [receive_message] *)

Definition receive_message (message : MCPMessage) : prog (http FinancialResponse) :=
  try_except
    (analysis <- analyze_financial_aspects (business_data message)
                   (strategic_plan message) ;;
     t <- now_isoformat ;;
     Ret (Http200 (mkResponse (agent_type message) analysis t (request_id message))))
    (fun e => Ret (HTTPException 500 ("Financial analysis failed: " ++ exc_str e))).

(* ------------------------------------------------------------------ *)
(** *** [health_check] *)

Definition health_check : prog pyval :=
  Dict_ [
    ("status", str "healthy");
    ("agent_type", str "financial");
    ("timestamp", t <- now_isoformat ;; str t)
  ].

(* ------------------------------------------------------------------ *)
(** *** Automated tasks *)

Definition perform_financial_review (business_name business_id parameters : pyval)
  : prog pyval :=
  try_except
    (let review_prompt :=
       "
        Perform a comprehensive financial review for "
       ++ py_str business_name
       ++ ":
        
        Analysis areas:
        - Revenue performance and trends
        - Cost structure and efficiency
        - Profitability analysis
        - Cash flow management
        - Financial ratios and metrics
        - Budget vs actual performance
        
        Provide actionable financial insights and recommendations for improvement.
        " in
     analysis <-
       acreate (mkChat "gpt-3.5-turbo"
                  "You are an expert financial analyst providing insights for business financial health and growth."
                  review_prompt 1000 f0_7) ;;
     Dict_ [
       ("status", str "completed");
       ("task_type", str "financial_review");
       ("business_name", Ret business_name);
       ("business_id", Ret business_id);
       ("review_date", t <- now_isoformat ;; str t);
       ("financial_analysis", str analysis);
       ("financial_data", Dict_ [
         ("revenue", Ret (PInt 850000));
         ("expenses", Ret (PInt 680000));
         ("profit_margin", Ret (PFloat (float_of_Z 20)));
         ("cash_flow", Ret (PInt 120000));
         ("growth_rate", Ret (PFloat (float_of_Z 15)))
       ]);
       ("key_metrics", Dict_ [
         ("revenue_growth", str "15%");
         ("profit_margin", str "20%");
         ("cash_flow_positive", Ret (PBool true));
         ("expense_ratio", str "80%")
       ]);
       ("financial_recommendations", List_ [
         str "Optimize pricing strategy for better margins";
         str "Implement cost control measures";
         str "Improve cash flow management";
         str "Explore financing options for growth"
       ]);
       ("risk_assessment", Dict_ [
         ("financial_risks", List_ [
           str "Cash flow volatility"; str "Market competition"
         ]);
         ("mitigation_strategies", List_ [
           str "Build cash reserves"; str "Diversify revenue streams"
         ])
       ])
     ])
    (fun e => Dict_ [
       ("status", str "failed");
       ("error", str (exc_str e));
       ("task_type", str "financial_review")
     ]).

Definition perform_budget_adjustment (business_name business_id parameters : pyval)
  : prog pyval :=
  try_except
    (let adjustment_prompt :=
       "
        Perform budget adjustment analysis for "
       ++ py_str business_name
       ++ ":
        
        Current situation:
        - Performance vs budget
        - Market conditions
        - Growth opportunities
        - Cost pressures
        
        Provide:
        - Budget adjustment recommendations
        - Resource allocation priorities
        - Investment opportunities
        - Cost optimization strategies
        " in
     adjustment <-
       acreate (mkChat "gpt-3.5-turbo"
                  "You are a financial consultant providing budget optimization and resource allocation advice."
                  adjustment_prompt 1000 f0_7) ;;
     Dict_ [
       ("status", str "completed");
       ("task_type", str "budget_adjustment");
       ("business_name", Ret business_name);
       ("business_id", Ret business_id);
       ("adjustment_date", t <- now_isoformat ;; str t);
       ("budget_analysis", str adjustment);
       ("budget_adjustments", Dict_ [
         ("marketing_budget", str "+20%");
         ("operational_costs", str "-5%");
         ("technology_investment", str "+30%");
         ("staff_training", str "+15%")
       ]);
       ("resource_allocation", Dict_ [
         ("high_priority", List_ [str "Marketing"; str "Technology"]);
         ("medium_priority", List_ [str "Staff training"; str "Operations"]);
         ("low_priority", List_ [str "Administrative costs"])
       ]);
       ("investment_opportunities", List_ [
         str "Digital marketing automation";
         str "Customer relationship management system";
         str "Process optimization tools"
       ]);
       ("cost_optimization", List_ [
         str "Negotiate supplier contracts";
         str "Implement energy efficiency measures";
         str "Optimize inventory management"
       ])
     ])
    (fun e => Dict_ [
       ("status", str "failed");
       ("error", str (exc_str e));
       ("task_type", str "budget_adjustment")
     ]).

(** The progress lines of the [try] body ([# Log the automated task]).  Four
    lines print what the request holds, each reading [data] with its own
    [data.get]; a line that standard output refuses raises there.  The three
    lines in which the endpoint prints its own text are taken to be written:
    the heading before the four, the line that reports the task as completed
    (it repeats the task type that the first of the four has printed) and
    the error line of the [except] branch. *)
Definition log_task (data : pyval) : prog unit :=
  logged <- py_get data "task_type" PNone ;;
  _ <- print ("   Task Type: " ++ py_str logged) ;;
  logged <- py_get data "business_name" PNone ;;
  _ <- print ("   Business: " ++ py_str logged) ;;
  logged <- py_get data "business_id" (PStr "Not available") ;;
  _ <- print ("   Business ID: " ++ py_str logged) ;;
  logged <- py_get data "parameters" PNone ;;
  print ("   Parameters: " ++ py_str logged).

(** The four values read from [data] and the dispatch on [task_type]
    ([# Handle different task types]). *)
Definition handle_task (data : pyval) : prog pyval :=
  task_type <- py_get data "task_type" PNone ;;
  business_name <- py_get data "business_name" PNone ;;
  business_id <- py_get data "business_id" (PStr "temp_id") ;;
  parameters <- py_get data "parameters" (PDict []) ;;
  if py_eq_str task_type "financial_review" then
    perform_financial_review business_name business_id parameters
  else if py_eq_str task_type "budget_adjustment" then
    perform_budget_adjustment business_name business_id parameters
  else
    Dict_ [
      ("status", str "completed");
      ("task_type", Ret task_type);
      ("message", str ("Financial analysis completed for " ++ py_str task_type));
      ("financial_insights", str ("Financial insights for " ++ py_str business_name));
      ("recommendations", List_ [
        str "Monitor cash flow regularly";
        str "Review expense patterns";
        str "Optimize pricing strategy"
      ])
    ].

(** The [try] body once [data] is bound. *)
Definition dispatch_task (data : pyval) : prog pyval :=
  _ <- log_task data ;; handle_task data.

(** The [except] branch: [locals_data] is [data] when the name is bound.
    Its error line prints a mark and [str(e)]; the messages of the
    exceptions that reach the branch (the JSON parser's, [AttributeError]'s
    and [UnicodeEncodeError]'s, which escapes the character it names) are
    ASCII text. *)
Definition task_error (locals_data : option pyval) (e : exn) : prog pyval :=
  Dict_ [
    ("status", str "failed");
    ("error", str (exc_str e));
    ("task_type", match locals_data with
                  | Some data => py_get data "task_type" PNone
                  | None => str "unknown"
                  end)
  ].

Definition execute_automated_task (request : Request) : prog pyval :=
  match json request with
  | inl e => task_error None e
  | inr data => try_except (dispatch_task data) (task_error (Some data))
  end.

End Agent.

(* ================================================================== *)
(** ** Observations on a run *)

(** What the completion service answered to the first request of the run,
    if a request was sent at all. *)
Definition service_answer {A : Type} (w : world) (p : prog A) : option outcome :=
  match calls_of w p with
  | [] => None
  | req :: _ => Some (llm w req)
  end.

(** The first line of the run that standard output refused, with the
    exception the write raised; nothing when every line was written. *)
Fixpoint refused {A : Type} (w : world) (p : prog A) : option (string * exn) :=
  match p with
  | Ret _ | Raise _ => None
  | Chat req k => refused w (k (llm w req))
  | Clock k => refused w (k (now w))
  | Stdout line k =>
      match stdout w line with
      | Some e => Some (line, e)
      | None => refused w (k None)
      end
  end.

(** The text of a completed answer; nothing for a failed call. *)
Definition completed_text (o : outcome) : option string :=
  match o with
  | Completed text => Some text
  | Failed _ => None
  end.

(** The float a JSON number stands for in arithmetic and in [,.0f]. *)
Definition float_value (v : pyval) : option spec_float :=
  match v with
  | PFloat x => Some x
  | PInt z =>
      match float_of_Z z with
      | S754_infinity _ => None
      | x => Some x
      end
  | PBool b => Some (float_of_Z (if b then 1 else 0))
  | _ => None
  end.

(** [v > 0] on numbers. *)
Definition positive_number (v : pyval) : bool :=
  match v with
  | PInt z => Z.ltb 0 z
  | PFloat x => SFltb (S754_zero false) x
  | PBool b => b
  | _ => false
  end.

(** The fields of a profile the reports are built from. *)
Definition profile_name (bd : dict) : pyval := dict_get bd "business_name" (PStr "").
Definition profile_type (bd : dict) : pyval := dict_get bd "business_type" (PStr "").
Definition profile_industry (bd : dict) : pyval := dict_get bd "industry" (PStr "").
Definition profile_investment (bd : dict) : pyval :=
  dict_get bd "initial_investment" PNone.

Definition is_dict (v : pyval) : bool :=
  match v with
  | PDict _ => true
  | _ => false
  end.

(** Inputs of the analysis as the data model types them: the investment a
    number, the growth goals a list of strings, the growth strategy of the
    plan a mapping when there is one. *)
Definition typed_inputs (bd sp : dict) : Prop :=
  (exists x, float_value (profile_investment bd) = Some x)
  /\ (exists ss, dict_get bd "growth_goals" (PList []) = PList (map PStr ss))
  /\ is_dict (dict_get sp "growth_strategy" (PDict [])) = true.

(** The prompt the analysis builds for a profile and a plan. *)
Definition prompt_of (r : pyval -> string) (bd sp : dict) : prog string :=
  analysis_prompt r (profile_name bd) (profile_type bd)
    (dict_get bd "location" (PStr "")) (dict_get bd "description" (PStr ""))
    (dict_get bd "target_market" (PStr "")) (profile_industry bd)
    (dict_get bd "business_model" (PStr "")) (profile_investment bd)
    (dict_get bd "team_size" PNone) (dict_get bd "growth_goals" (PList [])) sp.

(** The request the analysis sends for a prompt. *)
Definition analysis_request (r : pyval -> string) (bd : dict) (prompt : string)
  : chat_request :=
  mkChat "gpt-3.5-turbo" (analysis_system r (profile_type bd) (profile_industry bd))
    prompt 1500 f0_7.

(** A program that never raises. *)
Inductive safe {A : Type} : prog A -> Prop :=
| safe_Ret a : safe (Ret a)
| safe_Chat req k : (forall o, safe (k o)) -> safe (Chat req k)
| safe_Clock k : (forall t, safe (k t)) -> safe (Clock k)
| safe_Stdout line k : (forall o, safe (k o)) -> safe (Stdout line k).

(** ** The monetary leaves of the reports

    Each leaf: where it sits, the factor applied to the investment ([None]
    where the investment itself is formatted) and the text after the amount. *)

Record leaf : Type := mkLeaf {
  leaf_path : list step;
  leaf_factor : option spec_float;
  leaf_suffix : string
}.

Definition scaled (x : spec_float) (l : leaf) : spec_float :=
  match leaf_factor l with
  | Some y => float_mul x y
  | None => x
  end.

(** Monetary leaves of the full report outside [pricing_strategy]. *)
Definition monetary_leaves (bt : string) : list leaf := [
  mkLeaf [Key "financial_projections"; Key "revenue_forecast"; Key "year_1"]
         (Some f0_8) "";
  mkLeaf [Key "financial_projections"; Key "revenue_forecast"; Key "year_2"]
         (Some f1_2) "";
  mkLeaf [Key "financial_projections"; Key "revenue_forecast"; Key "year_3"]
         (Some f1_8) "";
  mkLeaf [Key "financial_projections"; Key "monthly_revenue_targets"; Key "month_1_6"]
         (Some f0_05) "";
  mkLeaf [Key "financial_projections"; Key "monthly_revenue_targets"; Key "month_7_12"]
         (Some f0_08) "";
  mkLeaf [Key "financial_projections"; Key "monthly_revenue_targets"; Key "year_2"]
         (Some f0_1) "";
  mkLeaf [Key "funding_requirements"; Key "initial_investment"; Key (bt ++ "_equipment")]
         (Some f0_4) "";
  mkLeaf [Key "funding_requirements"; Key "initial_investment"; Key (bt ++ "_facility")]
         (Some f0_25) "";
  mkLeaf [Key "funding_requirements"; Key "initial_investment"; Key (bt ++ "_inventory")]
         (Some f0_1) "";
  mkLeaf [Key "funding_requirements"; Key "initial_investment"; Key "marketing"]
         (Some f0_15) "";
  mkLeaf [Key "funding_requirements"; Key "initial_investment"; Key "working_capital"]
         (Some f0_1) "";
  mkLeaf [Key "funding_requirements"; Key "initial_investment"; Key "total"]
         None "";
  mkLeaf [Key "funding_requirements"; Key "funding_sources"; Idx 0; Key "amount"]
         (Some f0_5) "";
  mkLeaf [Key "funding_requirements"; Key "funding_sources"; Idx 1; Key "amount"]
         (Some f0_4) "";
  mkLeaf [Key "funding_requirements"; Key "funding_sources"; Idx 2; Key "amount"]
         (Some f0_1) "";
  mkLeaf [Key "cost_structure"; Key "fixed_costs"; Key "rent"]
         (Some f0_02) "/month";
  mkLeaf [Key "cost_structure"; Key "fixed_costs"; Key "utilities"]
         (Some f0_005) "/month";
  mkLeaf [Key "cost_structure"; Key "fixed_costs"; Key "insurance"]
         (Some f0_002) "/month";
  mkLeaf [Key "cost_structure"; Key "fixed_costs"; Key "licenses"]
         (Some f0_001) "/month";
  mkLeaf [Key "cost_structure"; Key "fixed_costs"; Key "total_fixed"]
         (Some f0_028) "/month";
  mkLeaf [Key "cash_flow_management"; Key "daily_cash_flow"; Key "inflow"]
         (Some f0_003) "";
  mkLeaf [Key "cash_flow_management"; Key "daily_cash_flow"; Key "outflow"]
         (Some f0_002) "";
  mkLeaf [Key "cash_flow_management"; Key "daily_cash_flow"; Key "net"]
         (Some f0_001) "";
  mkLeaf [Key "investment_opportunities"; Idx 0; Key "investment"]
         (Some f0_15) "";
  mkLeaf [Key "investment_opportunities"; Idx 1; Key "investment"]
         (Some f0_075) "";
  mkLeaf [Key "investment_opportunities"; Idx 2; Key "investment"]
         (Some f0_1) "";
  mkLeaf [Key "break_even_analysis"; Key "monthly_fixed_costs"]
         (Some f0_028) "";
  mkLeaf [Key "break_even_analysis"; Key "break_even_revenue"]
         (Some f0_14) "/month"
].

(** The three leaves of [pricing_strategy], in the order of the display. *)
Definition pricing_path (bt key : string) : list step :=
  [Key "pricing_strategy"; Key (bt ++ "_pricing"); Key key].

Definition pricing_leaves (bt : string) : list leaf := [
  mkLeaf (pricing_path bt ("basic_" ++ bt ++ "_service")) (Some f0_001) "";
  mkLeaf (pricing_path bt ("premium_" ++ bt ++ "_service")) (Some f0_002) "";
  mkLeaf (pricing_path bt (bt ++ "_consulting")) (Some f0_005) ""
].

Definition full_leaves (bt : string) : list leaf :=
  (monetary_leaves bt ++ pricing_leaves bt)%list.

(** Monetary leaves of the fallback report. *)
Definition fallback_leaves : list leaf := [
  mkLeaf [Key "financial_projections"; Key "revenue_forecast"; Key "year_1"]
         (Some f0_5) "";
  mkLeaf [Key "financial_projections"; Key "revenue_forecast"; Key "year_2"]
         (Some f0_75) "";
  mkLeaf [Key "funding_requirements"; Key "initial_investment"; Key "total"]
         None ""
].

(** Leaves of the full report that carry no amount. *)
Definition non_monetary_paths (bt : string) : list (list step) := [
  [Key "business_name"];
  [Key "business_type"];
  [Key "financial_projections"; Key "profit_margins"; Key (bt ++ "_services")];
  [Key "financial_projections"; Key "profit_margins"; Key (bt ++ "_products")];
  [Key "financial_projections"; Key "profit_margins"; Key (bt ++ "_consulting")];
  [Key "funding_requirements"; Key "funding_sources"; Idx 0; Key "source"];
  [Key "funding_requirements"; Key "funding_sources"; Idx 0; Key "percentage"];
  [Key "funding_requirements"; Key "funding_sources"; Idx 1; Key "source"];
  [Key "funding_requirements"; Key "funding_sources"; Idx 1; Key "percentage"];
  [Key "funding_requirements"; Key "funding_sources"; Idx 2; Key "source"];
  [Key "funding_requirements"; Key "funding_sources"; Idx 2; Key "percentage"];
  [Key "cost_structure"; Key "variable_costs"; Key (bt ++ "_materials")];
  [Key "cost_structure"; Key "variable_costs"; Key (bt ++ "_labor")];
  [Key "cost_structure"; Key "variable_costs"; Key (bt ++ "_marketing")];
  [Key "cost_structure"; Key "variable_costs"; Key (bt ++ "_overhead")];
  [Key "cost_structure"; Key "variable_costs"; Key "total_variable"];
  [Key "pricing_strategy"; Key "pricing_factors"];
  [Key "cash_flow_management"; Key "cash_reserves"];
  [Key "cash_flow_management"; Key "payment_terms"; Key "suppliers"];
  [Key "cash_flow_management"; Key "payment_terms"; Key "customers"];
  [Key "cash_flow_management"; Key "payment_terms"; Key "utilities"];
  [Key "investment_opportunities"; Idx 0; Key "opportunity"];
  [Key "investment_opportunities"; Idx 0; Key "roi"];
  [Key "investment_opportunities"; Idx 0; Key "payback_period"];
  [Key "investment_opportunities"; Idx 1; Key "opportunity"];
  [Key "investment_opportunities"; Idx 1; Key "roi"];
  [Key "investment_opportunities"; Idx 1; Key "payback_period"];
  [Key "investment_opportunities"; Idx 2; Key "opportunity"];
  [Key "investment_opportunities"; Idx 2; Key "roi"];
  [Key "investment_opportunities"; Idx 2; Key "payback_period"];
  [Key "financial_risks"; Key "market_risks"];
  [Key "financial_risks"; Key "operational_risks"];
  [Key "financial_risks"; Key "mitigation_strategies"];
  [Key "break_even_analysis"; Key "average_contribution_margin"];
  [Key "break_even_analysis"; Key "break_even_timeframe"];
  [Key "financial_kpis"];
  [Key "recommendations"];
  [Key "ai_analysis"]
].

(** What every fallback report holds besides its three amounts. *)
Definition fallback_shape (bt : string) (F : pyval) : Prop :=
  has_key "cost_structure" F = false
  /\ has_key "cash_flow_management" F = false
  /\ has_key "ai_analysis" F = false
  /\ map (fun l => at_path (leaf_path l) F) (pricing_leaves bt) =
     [Some (PStr "Market-based pricing"); Some (PStr "Value-based pricing");
      Some (PStr "Hourly rate")]
  /\ at_path [Key "recommendations"] F =
     Some (PList [PStr "Maintain cash reserves";
                  PStr "Monitor costs closely";
                  PStr ("Focus on high-margin " ++ bt ++ " products/services");
                  PStr "Build supplier relationships"]).

Definition present (R : pyval) (p : list step) : Prop :=
  exists v, at_path p R = Some v.

(** [ends_with suf s]: [suf] is the tail of [s]. *)
Definition ends_with (suf s : string) : bool :=
  String.eqb (substring (String.length s - String.length suf) (String.length suf) s)
             suf.

(** No character of [s] is the dollar sign. *)
Definition no_dollar (s : string) : bool :=
  forallb (fun c => negb (Ascii.eqb c "$"%char)) (list_ascii_of_string s).

Definition plain (l : list ascii) : Prop :=
  Forall (fun c => Ascii.eqb c "$"%char = false) l.


(* ================================================================== *)
(** ** Sample inputs *)

(** A stand-in for [repr] on floats and containers. *)
Definition sample_repr (v : pyval) : string :=
  match v with
  | PList [] => "[]"
  | PDict [] => "{}"
  | _ => "<object>"
  end.

(** A standard output that encodes to UTF-8 with the strict error handler.
    A lone surrogate U+D800..U+DFFF, which a JSON string can hold through a
    [\uXXXX] escape, is the three bytes [ED A0..BF 80..BF] of the text; the
    stream refuses the first run of surrogates of a line, naming the
    position of the run in characters. *)
Definition leading_surrogate (l : list ascii) : option N :=
  match l with
  | b1 :: b2 :: b3 :: _ =>
      if ((N_of_ascii b1 =? 237) && (160 <=? N_of_ascii b2)
          && (N_of_ascii b2 <? 192) && is_continuation b3)%N
      then Some (53248 + 64 * (N_of_ascii b2 - 128) + (N_of_ascii b3 - 128))%N
      else None
  | _ => None
  end.

Fixpoint surrogate_run (l : list ascii) : nat :=
  match l with
  | b1 :: b2 :: b3 :: tl =>
      match leading_surrogate [b1; b2; b3] with
      | Some _ => S (surrogate_run tl)
      | None => 0
      end
  | _ => 0
  end.

Fixpoint first_surrogate (pos : nat) (l : list ascii) : option (nat * N * nat) :=
  match l with
  | [] => None
  | c :: tl =>
      match leading_surrogate l with
      | Some cp => Some (pos, cp, surrogate_run l)
      | None => first_surrogate (if is_continuation c then pos else S pos) tl
      end
  end.

Definition utf8_stdout (line : string) : option exn :=
  match first_surrogate 0 (list_ascii_of_string line) with
  | None => None
  | Some (pos, cp, 1) =>
      Some (UnicodeEncodeError
              (quote ++ "utf-8" ++ quote ++ " codec can't encode character "
               ++ quote ++ "\u"
               ++ HexadecimalString.NilZero.string_of_uint (N.to_hex_uint cp)
               ++ quote ++ " in position " ++ decimal_of_Z (Z.of_nat pos)
               ++ ": surrogates not allowed"))
  | Some (pos, _, n) =>
      Some (UnicodeEncodeError
              (quote ++ "utf-8" ++ quote ++ " codec can't encode characters"
               ++ " in position " ++ decimal_of_Z (Z.of_nat pos) ++ "-"
               ++ decimal_of_Z (Z.of_nat (pos + n - 1))
               ++ ": surrogates not allowed"))
  end.

(** The one-character text of the JSON string ["\ud800"]. *)
Definition lone_surrogate : string :=
  String "237"%char (String "160"%char (String "128"%char EmptyString)).

Definition cafe (investment : list (string * pyval)) : dict :=
  ([("business_type", PStr "cafe"); ("industry", PStr "food")] ++ investment)%list.

Definition cafe_100000 : dict := cafe [("initial_investment", PInt 100000)].
Definition cafe_zero : dict := cafe [("initial_investment", PInt 0)].
Definition cafe_no_investment : dict := cafe [].

Definition cafe_text_investment : dict :=
  cafe [("initial_investment", PStr "100000")].

Definition cafe_mixed_goals : dict :=
  cafe [("initial_investment", PInt 100000);
        ("growth_goals", PList [PStr "open a second shop"; PInt 5])].

Definition cafe_in_bangkok : dict :=
  cafe [("initial_investment", PInt 100000); ("location", PStr "Bangkok");
        ("team_size", PInt 4); ("growth_goals", PList [PStr "open a second shop"])].

Definition plan_with_null_strategy : dict := [("growth_strategy", PNone)].

Definition plan_with_goals : dict :=
  [("growth_strategy", PDict [("short_term_goals", PList [PStr "break even"])])].

Definition service_up : world :=
  mkWorld (fun _ => Completed "Projected revenue grows steadily.")
          "2024-05-01T09:30:00" utf8_stdout.

Definition service_down : world :=
  mkWorld (fun _ => Failed (mkExn "APIConnectionError" "Connection refused"))
          "2024-05-01T09:30:00" utf8_stdout.

Definition message_for (bd : dict) : MCPMessage :=
  mkMessage "financial" bd [] "2024-05-01T09:29:58" "req-1".



Definition audit_task (parameters : pyval) : dict :=
  [("task_type", PStr "audit"); ("business_name", PStr "Cafe Luna");
   ("parameters", parameters)].


(* ================================================================== *)
(** ** Keys built from the business type *)

Lemma length_append (a b : string) :
  String.length (a ++ b) = String.length a + String.length b.
Proof. induction a as [|c a IH]; simpl; [reflexivity | now rewrite IH]. Qed.

Lemma eqb_app_same (b s1 s2 : string) :
  String.eqb (b ++ s1) (b ++ s2) = String.eqb s1 s2.
Proof.
  induction b as [|c b IH]; simpl; [reflexivity|].
  now rewrite Ascii.eqb_refl.
Qed.

Lemma eqb_length_neq (a b : string) :
  String.length a <> String.length b -> String.eqb a b = false.
Proof.
  intros H. apply String.eqb_neq. intros ->. now apply H.
Qed.

Lemma substring_whole (s : string) : substring 0 (String.length s) s = s.
Proof. induction s as [|c s IH]; simpl; [reflexivity | now rewrite IH]. Qed.

Lemma substring_skip (b suf : string) :
  substring (String.length b) (String.length suf) (b ++ suf) = suf.
Proof.
  induction b as [|c b IH]; simpl; [apply substring_whole | exact IH].
Qed.

Lemma ends_with_app (b suf : string) : ends_with suf (b ++ suf) = true.
Proof.
  unfold ends_with. rewrite length_append.
  replace (String.length b + String.length suf - String.length suf)
    with (String.length b) by lia.
  rewrite substring_skip. apply String.eqb_refl.
Qed.

Lemma eqb_lit_app (lit b suf : string) :
  ends_with suf lit = false -> String.eqb lit (b ++ suf) = false.
Proof.
  intros H. apply String.eqb_neq. intros ->.
  rewrite ends_with_app in H. discriminate.
Qed.

Lemma eqb_app_lit (lit b suf : string) :
  ends_with suf lit = false -> String.eqb (b ++ suf) lit = false.
Proof.
  intros H. rewrite String.eqb_sym. now apply eqb_lit_app.
Qed.

(** Looking a key up in a display: the last item with that key. *)
Lemma dict_lookup_set (k k' : string) (v : pyval) (d : dict) :
  dict_lookup k (dict_set k' v d) =
  if String.eqb k k' then Some v else dict_lookup k d.
Proof.
  induction d as [|[k0 v0] d IH]; simpl.
  - reflexivity.
  - destruct (String.eqb k' k0) eqn:E0; simpl.
    + apply String.eqb_eq in E0. subst k0.
      destruct (String.eqb k k'); reflexivity.
    + destruct (String.eqb k k0) eqn:E1.
      * apply String.eqb_eq in E1. subst k0.
        rewrite String.eqb_sym, E0. reflexivity.
      * exact IH.
Qed.

Lemma dict_lookup_fold (k : string) (items : list (string * pyval)) (d : dict) :
  dict_lookup k (fold_left (fun d kv => dict_set (fst kv) (snd kv) d) items d) =
  match dict_lookup k (List.rev items) with
  | Some v => Some v
  | None => dict_lookup k d
  end.
Proof.
  revert d. induction items as [|[k0 v0] items IH]; intros d; simpl.
  - reflexivity.
  - rewrite IH.
    assert (Happ : forall l,
      dict_lookup k (l ++ [(k0, v0)])%list =
      match dict_lookup k l with
      | Some v => Some v
      | None => if String.eqb k k0 then Some v0 else None
      end).
    { induction l as [|[k1 v1] l IHl]; simpl; [reflexivity|].
      destruct (String.eqb k k1); [reflexivity | exact IHl]. }
    rewrite Happ, dict_lookup_set.
    destruct (dict_lookup k (List.rev items)); [reflexivity|].
    destruct (String.eqb k k0); reflexivity.
Qed.

Lemma dict_lookup_literal (k : string) (items : list (string * pyval)) :
  dict_lookup k (dict_literal items) = dict_lookup k (List.rev items).
Proof.
  unfold dict_literal. rewrite dict_lookup_fold.
  destruct (dict_lookup k (List.rev items)); reflexivity.
Qed.

(** Deciding one comparison of keys. *)
Ltac key_length :=
  repeat rewrite length_append; simpl String.length; lia.

Ltac key_eqb :=
  match goal with
  | |- context [String.eqb ?a ?a] => rewrite (String.eqb_refl a)
  | |- context [String.eqb (?b ++ ?s1) (?b ++ ?s2)] =>
      rewrite (eqb_app_same b s1 s2)
  | |- context [String.eqb ?a (?b ++ ?suf)] =>
      rewrite (eqb_lit_app a b suf) by reflexivity
  | |- context [String.eqb (?b ++ ?suf) ?a] =>
      rewrite (eqb_app_lit a b suf) by reflexivity
  | |- context [String.eqb ?a ?b] =>
      rewrite (eqb_length_neq a b) by key_length
  end.

Ltac lookup :=
  repeat (cbn [at_path subscript nth_error];
          try rewrite dict_lookup_literal;
          cbn [List.rev List.app dict_lookup];
          repeat (first [ progress cbn [String.eqb Ascii.eqb Bool.eqb]
                        | key_eqb ])).

(* ================================================================== *)
(** ** Running programs *)

Lemma run_bind {A B : Type} (w : world) (p : prog A) (f : A -> prog B) :
  run w (bind p f) =
  match run w p with
  | (Returned a, c1) => let (r, c2) := run w (f a) in (r, (c1 ++ c2)%list)
  | (Raised e, c1) => (Raised e, c1)
  end.
Proof.
  induction p as [a | e | req k IH | k IH | line k IH]; cbn [bind run].
  - destruct (run w (f a)); reflexivity.
  - reflexivity.
  - rewrite IH. destruct (run w (k (llm w req))) as [[a | e] c1].
    + destruct (run w (f a)); reflexivity.
    + reflexivity.
  - apply IH.
  - apply IH.
Qed.

Lemma run_try_except {A : Type} (w : world) (p : prog A) (h : exn -> prog A) :
  run w (try_except p h) =
  match run w p with
  | (Returned a, c1) => (Returned a, c1)
  | (Raised e, c1) => let (r, c2) := run w (h e) in (r, (c1 ++ c2)%list)
  end.
Proof.
  induction p as [a | e | req k IH | k IH | line k IH]; cbn [try_except run].
  - reflexivity.
  - destruct (run w (h e)); reflexivity.
  - rewrite IH. destruct (run w (k (llm w req))) as [[a | e] c1].
    + reflexivity.
    + destruct (run w (h e)); reflexivity.
  - apply IH.
  - apply IH.
Qed.

Lemma run_acreate (w : world) (req : chat_request) :
  run w (acreate req) =
  (match llm w req with
   | Completed text => Returned text
   | Failed e => Raised e
   end, [req]).
Proof.
  unfold acreate. cbn [run]. destruct (llm w req); reflexivity.
Qed.

Lemma safe_run {A : Type} (w : world) (p : prog A) :
  safe p -> exists a, outcome_of w p = Returned a.
Proof.
  unfold outcome_of.
  induction 1 as [a | req k _ IH | k _ IH | line k _ IH]; cbn [run].
  - now exists a.
  - destruct (IH (llm w req)) as [a Ha]. exists a.
    destruct (run w (k (llm w req))); exact Ha.
  - apply IH.
  - apply IH.
Qed.

Lemma safe_try_except {A : Type} (p : prog A) (h : exn -> prog A) :
  (forall e, safe (h e)) -> safe (try_except p h).
Proof.
  intros Hh. induction p as [a | e | req k IH | k IH | line k IH];
    cbn [try_except].
  - constructor.
  - apply Hh.
  - constructor. exact IH.
  - constructor. exact IH.
  - constructor. exact IH.
Qed.

Lemma run_try_safe {A : Type} (w : world) (p : prog A) (h : exn -> prog A) :
  safe p -> run w (try_except p h) = run w p.
Proof.
  induction 1 as [a | req k _ IH | k _ IH | line k _ IH]; cbn [try_except run].
  - reflexivity.
  - now rewrite IH.
  - apply IH.
  - apply IH.
Qed.


(* ================================================================== *)
(** ** Numbers in the money leaves *)

Lemma append_empty (s : string) : s ++ "" = s.
Proof. induction s as [|c s IH]; simpl; [reflexivity | now rewrite IH]. Qed.

Lemma py_mul_float_number (v : pyval) (x y : spec_float) :
  float_value v = Some x -> py_mul_float v y = Ret (float_mul x y).
Proof.
  unfold py_mul_float, float_value, int_to_float.
  destruct v as [| b | z | x' | s | l | d]; try discriminate.
  - intros [= <-]. destruct b; reflexivity.
  - destruct (float_of_Z z); intros [= <-]; reflexivity.
  - intros [= <-]. reflexivity.
Qed.

Lemma py_format_number (v : pyval) (x : spec_float) :
  float_value v = Some x -> py_format_comma0 v = Ret (format_comma0 x).
Proof.
  unfold py_format_comma0, float_value, int_to_float.
  destruct v as [| b | z | x' | s | l | d]; try discriminate.
  - intros [= <-]. destruct b; reflexivity.
  - destruct (float_of_Z z); intros [= <-]; reflexivity.
  - intros [= <-]. reflexivity.
Qed.

(** The format succeeds on numbers only. *)
Lemma py_format_cases (v : pyval) :
  (exists x, float_value v = Some x /\ py_format_comma0 v = Ret (format_comma0 x))
  \/ (exists e, float_value v = None /\ py_format_comma0 v = Raise e).
Proof.
  destruct (float_value v) as [x|] eqn:E.
  - left. exists x. split; [reflexivity | now apply py_format_number].
  - right. unfold py_format_comma0, float_value, int_to_float in *.
    destruct v as [| b | z | x' | s | l | d]; try discriminate;
      try (eexists; split; reflexivity).
    destruct (float_of_Z z); try discriminate.
    eexists; split; reflexivity.
Qed.

Lemma usd_number (v : pyval) (x y : spec_float) (suffix : string) :
  float_value v = Some x ->
  usd v y suffix = Ret (PStr ("$" ++ format_comma0 (float_mul x y) ++ suffix)).
Proof.
  intros H. unfold usd. now rewrite (py_mul_float_number _ _ _ H).
Qed.

Lemma usd_plain_number (v : pyval) (x : spec_float) :
  float_value v = Some x ->
  usd_plain v = Ret (PStr ("$" ++ format_comma0 x ++ "")).
Proof.
  intros H. unfold usd_plain. rewrite (py_format_number _ _ H).
  cbn [bind]. now rewrite append_empty.
Qed.

Lemma thb_number (v : pyval) (x y : spec_float) :
  float_value v = Some x ->
  thb v y = Ret (PStr (format_comma0 (float_mul x y) ++ " THB")).
Proof.
  intros H. unfold thb. now rewrite (py_mul_float_number _ _ _ H).
Qed.

Lemma thb_plain_number (v : pyval) (x : spec_float) :
  float_value v = Some x ->
  thb_plain v = Ret (PStr (format_comma0 x ++ " THB")).
Proof.
  intros H. unfold thb_plain. now rewrite (py_format_number _ _ H).
Qed.

Lemma positive_truthy (v : pyval) : positive_number v = true -> truthy v = true.
Proof.
  destruct v as [| b | z | x | s | l | d]; cbn; try discriminate.
  - trivial.
  - intros H. apply Z.ltb_lt in H. apply negb_true_iff, Z.eqb_neq. lia.
  - destruct x; cbn; try reflexivity. discriminate.
Qed.

(* ------------------------------------------------------------------ *)
(** The formatted amount holds digits, commas, a sign or a name, never the
    dollar sign. *)

Lemma no_dollar_plain (s : string) :
  plain (list_ascii_of_string s) -> no_dollar s = true.
Proof.
  unfold no_dollar, plain. intros H. apply forallb_forall. intros c Hc.
  rewrite Forall_forall in H. now rewrite (H c Hc).
Qed.

Lemma list_ascii_app (a b : string) :
  list_ascii_of_string (a ++ b) =
  (list_ascii_of_string a ++ list_ascii_of_string b)%list.
Proof. induction a as [|c a IH]; simpl; [reflexivity | now rewrite IH]. Qed.

Lemma plain_uint (d : Decimal.uint) :
  plain (list_ascii_of_string (NilEmpty.string_of_uint d)).
Proof.
  unfold plain. induction d; simpl; constructor; solve [reflexivity | assumption].
Qed.

Lemma plain_decimal (z : Z) : plain (list_ascii_of_string (decimal_of_Z z)).
Proof.
  unfold decimal_of_Z, NilZero.string_of_int, NilZero.string_of_uint.
  destruct (Z.to_int z) as [d | d].
  - destruct d; try apply plain_uint. repeat constructor.
  - simpl. constructor; [reflexivity|].
    destruct d; try apply plain_uint. repeat constructor.
Qed.

Lemma plain_commas_rev (l : list ascii) : plain l -> plain (commas_rev l).
Proof.
  unfold plain.
  enough (H : forall n l, List.length l <= n ->
                Forall (fun c => Ascii.eqb c "$"%char = false) l ->
                Forall (fun c => Ascii.eqb c "$"%char = false) (commas_rev l)).
  { intros Hl. now apply (H (List.length l)). }
  clear l. induction n as [|n IH]; intros l Hn Hl.
  - destruct l; [assumption | simpl in Hn; lia].
  - destruct l as [|a [|b [|c [|d tl]]]]; try assumption.
    change (commas_rev (a :: b :: c :: d :: tl))
      with (a :: b :: c :: ","%char :: commas_rev (d :: tl)).
    inversion Hl as [|? ? Ha Hl1]; subst.
    inversion Hl1 as [|? ? Hb Hl2]; subst.
    inversion Hl2 as [|? ? Hc Hl3]; subst.
    repeat (constructor; [assumption|]).
    constructor; [reflexivity|].
    apply IH; [simpl in *; lia | assumption].
Qed.

Lemma plain_group (s : string) :
  plain (list_ascii_of_string s) ->
  plain (list_ascii_of_string (group_thousands s)).
Proof.
  intros H. unfold group_thousands.
  rewrite list_ascii_of_string_of_list_ascii.
  unfold plain in *. apply Forall_rev. apply plain_commas_rev.
  unfold plain. now apply Forall_rev.
Qed.

Lemma plain_format (x : spec_float) : plain (list_ascii_of_string (format_comma0 x)).
Proof.
  destruct x as [s | s | | s m e]; cbn [format_comma0].
  - destruct s; repeat constructor.
  - destruct s; repeat constructor.
  - repeat constructor.
  - rewrite list_ascii_app. apply Forall_app. split.
    + destruct s; repeat constructor.
    + apply plain_group, plain_decimal.
Qed.

Lemma no_dollar_thb (x : spec_float) : no_dollar (format_comma0 x ++ " THB") = true.
Proof.
  apply no_dollar_plain. rewrite list_ascii_app.
  apply Forall_app. split; [apply plain_format | repeat constructor].
Qed.

(* ================================================================== *)
(** ** The two report displays *)

Ltac eval_display :=
  cbn [Dict_ List_ eval_items eval_elems bind str].

Ltac leaf_goal :=
  unfold pricing_path;
  cbn [leaf_path leaf_factor leaf_suffix scaled has_key];
  lookup; try reflexivity.

Ltac each_leaf :=
  repeat (apply Forall_cons; [leaf_goal |]); try apply Forall_nil.

Section Reports.

Variable r : pyval -> string.

(** The full report for an investment that passes the test [if v]. *)
Lemma full_report_truthy (bn bt ind v : pyval) (x : spec_float) (text : string) :
  float_value v = Some x ->
  truthy v = true ->
  exists R,
    full_report r bn bt ind v text = Ret R
    /\ Forall (fun l => at_path (leaf_path l) R =
                        Some (PStr ("$" ++ format_comma0 (scaled x l) ++ leaf_suffix l)))
              (full_leaves (py_str r bt))
    /\ at_path [Key "ai_analysis"] R = Some (PStr text)
    /\ has_key "cost_structure" R = true
    /\ has_key "cash_flow_management" R = true.
Proof.
  intros Hx Ht. unfold full_report. rewrite Ht.
  rewrite !(usd_number _ _ _ _ Hx), (usd_plain_number _ _ Hx).
  eval_display. eexists. split; [reflexivity|].
  split; [| repeat split; leaf_goal].
  unfold full_leaves, monetary_leaves, pricing_leaves. cbn [List.app].
  each_leaf.
Qed.

(** The full report for an investment that fails the test. *)
Lemma full_report_falsy (bn bt ind v : pyval) (text : string) :
  truthy v = false ->
  exists R,
    full_report r bn bt ind v text = Ret R
    /\ Forall (fun l => at_path (leaf_path l) R = Some (PStr to_be_determined))
              (monetary_leaves (py_str r bt))
    /\ map (fun l => at_path (leaf_path l) R) (pricing_leaves (py_str r bt)) =
       [Some (PStr "Market-based pricing"); Some (PStr "Value-based pricing");
        Some (PStr "Hourly rate")]
    /\ Forall (present R) (non_monetary_paths (py_str r bt))
    /\ at_path [Key "ai_analysis"] R = Some (PStr text).
Proof.
  intros Ht. unfold full_report. rewrite Ht.
  eval_display. eexists. split; [reflexivity|].
  split; [| split; [| split]].
  - unfold monetary_leaves. each_leaf.
  - unfold pricing_leaves. cbn [map]. leaf_goal.
  - unfold non_monetary_paths, present.
    repeat (apply Forall_cons; [eexists; leaf_goal |]). apply Forall_nil.
  - leaf_goal.
Qed.

Lemma fallback_report_truthy (bn bt v : pyval) (x : spec_float) :
  float_value v = Some x ->
  truthy v = true ->
  exists F,
    fallback_report r bn bt v = Ret F
    /\ Forall (fun l => at_path (leaf_path l) F =
                        Some (PStr (format_comma0 (scaled x l) ++ " THB")))
              fallback_leaves
    /\ fallback_shape (py_str r bt) F.
Proof.
  intros Hx Ht. unfold fallback_report. rewrite Ht.
  rewrite !(thb_number _ _ _ Hx), (thb_plain_number _ _ Hx).
  eval_display. eexists. split; [reflexivity|].
  split.
  - unfold fallback_leaves. each_leaf.
  - unfold fallback_shape, pricing_leaves. cbn [map]. repeat split; leaf_goal.
Qed.

Lemma fallback_report_falsy (bn bt v : pyval) :
  truthy v = false ->
  exists F,
    fallback_report r bn bt v = Ret F
    /\ Forall (fun l => at_path (leaf_path l) F = Some (PStr to_be_determined))
              fallback_leaves
    /\ fallback_shape (py_str r bt) F.
Proof.
  intros Ht. unfold fallback_report. rewrite Ht.
  eval_display. eexists. split; [reflexivity|].
  split.
  - unfold fallback_leaves. each_leaf.
  - unfold fallback_shape, pricing_leaves. cbn [map]. repeat split; leaf_goal.
Qed.

End Reports.

(* ================================================================== *)
(** ** The analysis: prompt, call, report *)

Section Analysis.

Variable r : pyval -> string.

Lemma join_items_cases (l : list pyval) (i : nat) :
  (exists ss, join_items i l = Ret ss) \/ (exists e, join_items i l = Raise e).
Proof.
  revert i. induction l as [|v l IH]; intros i; cbn [join_items].
  - left. now eexists.
  - destruct v; try (right; eexists; reflexivity).
    destruct (IH (S i)) as [[ss ->] | [e ->]]; cbn [bind].
    + left. now eexists.
    + right. now eexists.
Qed.

Lemma py_join_cases (sep : string) (v : pyval) :
  (exists s, py_join sep v = Ret s) \/ (exists e, py_join sep v = Raise e).
Proof.
  destruct v; cbn [py_join]; try (right; eexists; reflexivity);
    try (left; eexists; reflexivity).
  destruct (join_items_cases l 0) as [[ss ->] | [e ->]]; cbn [bind].
  - left. now eexists.
  - right. now eexists.
Qed.

Lemma py_get_cases (v : pyval) (k : string) (default : pyval) :
  (exists a, py_get v k default = Ret a) \/ (exists e, py_get v k default = Raise e).
Proof.
  destruct v; cbn [py_get]; try (right; eexists; reflexivity).
  left. now eexists.
Qed.

(** The prompt is built, and then the investment is a number, or building it
    raises. *)
Lemma analysis_prompt_cases
  (bn bt loc desc tm ind bm v ts gg : pyval) (sp : dict) :
  (exists p x, float_value v = Some x
               /\ analysis_prompt r bn bt loc desc tm ind bm v ts gg sp = Ret p)
  \/ (exists e, analysis_prompt r bn bt loc desc tm ind bm v ts gg sp = Raise e).
Proof.
  unfold analysis_prompt.
  destruct (py_format_cases v) as [(x & Hx & ->) | (e & _ & ->)]; cbn [bind];
    [| right; now eexists].
  destruct (py_join_cases ", " gg) as [[s ->] | [e ->]]; cbn [bind];
    [| right; now eexists].
  match goal with
  | |- context [py_get ?a ?k ?d] =>
      destruct (py_get_cases a k d) as [[g ->] | [e ->]]
  end; cbn [bind].
  - left. eexists. exists x. split; [exact Hx | reflexivity].
  - right. now eexists.
Qed.

(** Without an investment the prompt cannot be formatted. *)
Lemma analysis_prompt_none
  (bn bt loc desc tm ind bm ts gg : pyval) (sp : dict) :
  analysis_prompt r bn bt loc desc tm ind bm PNone ts gg sp =
  Raise (TypeError "unsupported format string passed to NoneType.__format__").
Proof. reflexivity. Qed.

Lemma analyze_cases (bd sp : dict) :
  (exists e, analyze_financial_aspects r bd sp = Raise e)
  \/ (exists x req,
        float_value (profile_investment bd) = Some x
        /\ analyze_financial_aspects r bd sp =
           try_except
             (text <- acreate req ;;
              full_report r (profile_name bd) (profile_type bd)
                (profile_industry bd) (profile_investment bd) text)
             (fun _ => fallback_report r (profile_name bd) (profile_type bd)
                         (profile_investment bd))).
Proof.
  unfold analyze_financial_aspects, profile_name, profile_type, profile_industry,
    profile_investment.
  cbv zeta.
  match goal with
  | |- context [analysis_prompt r ?a ?b ?c ?d ?e ?f ?g ?h ?i ?j ?k] =>
      destruct (analysis_prompt_cases a b c d e f g h i j k)
        as [(p & x & Hx & ->) | (e' & ->)]
  end; cbn [bind].
  - right. exists x. eexists. split; [exact Hx | reflexivity].
  - left. now eexists.
Qed.

(** What a run of the analysis gives once the service has been called. *)
Lemma analyze_called (bd sp : dict) (w : world) (o : outcome) :
  service_answer w (analyze_financial_aspects r bd sp) = Some o ->
  exists x,
    float_value (profile_investment bd) = Some x
    /\ match o with
       | Completed text =>
           forall R,
             full_report r (profile_name bd) (profile_type bd)
               (profile_industry bd) (profile_investment bd) text = Ret R ->
             outcome_of w (analyze_financial_aspects r bd sp) = Returned R
       | Failed _ =>
           forall F,
             fallback_report r (profile_name bd) (profile_type bd)
               (profile_investment bd) = Ret F ->
             outcome_of w (analyze_financial_aspects r bd sp) = Returned F
       end.
Proof.
  unfold service_answer, calls_of, outcome_of.
  destruct (analyze_cases bd sp) as [[e ->] | (x & req & Hx & ->)].
  - cbn [run snd]. discriminate.
  - rewrite run_try_except, run_bind, run_acreate.
    destruct (llm w req) as [text | e] eqn:Hllm.
    + destruct (run w (full_report r (profile_name bd) (profile_type bd)
                         (profile_industry bd) (profile_investment bd) text))
        as [[R | e] c] eqn:Hrun; cbn [fst snd List.app].
      * rewrite Hllm. intros [= <-]. exists x. split; [exact Hx|].
        intros R' HR'. rewrite HR' in Hrun. cbn in Hrun. congruence.
      * destruct (run w (fallback_report r (profile_name bd) (profile_type bd)
                           (profile_investment bd))) as [r' c'].
        cbn [fst snd List.app]. rewrite Hllm. intros [= <-]. exists x. split; [exact Hx|].
        intros R' HR'. rewrite HR' in Hrun. cbn in Hrun. congruence.
    + destruct (run w (fallback_report r (profile_name bd) (profile_type bd)
                         (profile_investment bd))) as [r' c'] eqn:Hrun.
      cbn [fst snd List.app]. rewrite Hllm. intros [= <-]. exists x. split; [exact Hx|].
      intros F HF. rewrite HF in Hrun. cbn in Hrun. congruence.
Qed.

(** [receive_message] wraps whatever the analysis gives. *)
Lemma receive_message_run (m : MCPMessage) (w : world) :
  run w (receive_message r m) =
  (match outcome_of w (analyze_financial_aspects r (business_data m)
                         (strategic_plan m)) with
   | Returned a =>
       Returned (Http200 (mkResponse (agent_type m) a (now w) (request_id m)))
   | Raised e =>
       Returned (HTTPException 500 ("Financial analysis failed: " ++ exc_str e))
   end,
   calls_of w (analyze_financial_aspects r (business_data m) (strategic_plan m))).
Proof.
  unfold receive_message, outcome_of, calls_of.
  rewrite run_try_except, run_bind.
  destruct (run w (analyze_financial_aspects r (business_data m) (strategic_plan m)))
    as [[a | e] c]; cbn; now rewrite List.app_nil_r.
Qed.

Lemma receive_message_answer (m : MCPMessage) (w : world) :
  service_answer w (receive_message r m) =
  service_answer w (analyze_financial_aspects r (business_data m) (strategic_plan m)).
Proof.
  unfold service_answer at 1. unfold calls_of at 1.
  now rewrite receive_message_run.
Qed.

End Analysis.

(* ------------------------------------------------------------------ *)
(** With a numeric investment, a list of strings as growth goals and a
    mapping (or nothing) as growth strategy, the analysis never raises: it
    sends one request and returns a report, whatever the service answers. *)

Section Totality.

Variable r : pyval -> string.

Lemma join_items_strings (ss : list string) (i : nat) :
  join_items i (map PStr ss) = Ret ss.
Proof.
  revert i. induction ss as [|s ss IH]; intros i; cbn [map join_items].
  - reflexivity.
  - now rewrite IH.
Qed.

Lemma analysis_total_on_typed_inputs (bd sp : dict) (w : world) :
  typed_inputs bd sp ->
  exists R req, run w (analyze_financial_aspects r bd sp) = (Returned R, [req]).
Proof.
  intros ([x Hx] & [ss Hss] & Hgs).
  unfold analyze_financial_aspects. cbv zeta.
  fold (profile_investment bd) (profile_name bd) (profile_type bd)
       (profile_industry bd).
  unfold analysis_prompt.
  rewrite (py_format_number _ _ Hx), Hss. cbn [bind py_join].
  rewrite join_items_strings. cbn [bind].
  destruct (dict_get sp "growth_strategy" (PDict [])) eqn:Eg; try discriminate.
  cbn [py_get bind].
  rewrite run_try_except, run_bind, run_acreate.
  assert (Hfull : forall text, exists R,
             full_report r (profile_name bd) (profile_type bd) (profile_industry bd)
               (profile_investment bd) text = Ret R).
  { intros text. destruct (truthy (profile_investment bd)) eqn:Ht.
    - destruct (full_report_truthy r (profile_name bd) (profile_type bd)
                  (profile_industry bd) (profile_investment bd) x text Hx Ht)
        as (R & HR & _). now exists R.
    - destruct (full_report_falsy r (profile_name bd) (profile_type bd)
                  (profile_industry bd) (profile_investment bd) text Ht)
        as (R & HR & _). now exists R. }
  assert (Hfall : exists F,
             fallback_report r (profile_name bd) (profile_type bd)
               (profile_investment bd) = Ret F).
  { destruct (truthy (profile_investment bd)) eqn:Ht.
    - destruct (fallback_report_truthy r (profile_name bd) (profile_type bd)
                  (profile_investment bd) x Hx Ht) as (F & HF & _). now exists F.
    - destruct (fallback_report_falsy r (profile_name bd) (profile_type bd)
                  (profile_investment bd) Ht) as (F & HF & _). now exists F. }
  match goal with |- context [llm w ?q] => destruct (llm w q) as [text | e] end.
  - destruct (Hfull text) as [R ->]. cbn [run List.app]. now eexists; eexists.
  - destruct Hfall as [F ->]. cbn [run List.app]. now eexists; eexists.
Qed.

End Totality.

(* ================================================================== *)
(** ** Automated tasks *)

Ltac eval_run :=
  cbn [run bind try_except Dict_ List_ eval_items eval_elems str now_isoformat
       fst snd List.app].

(** One progress line: written, or refused with the exception of the
    write. *)
Ltac step_print :=
  match goal with
  | H : context [stdout ?w ?l] |- _ => destruct (stdout w l) eqn:?
  | |- context [stdout ?w ?l] => destruct (stdout w l) eqn:?
  end;
  cbn [print bind try_except run refused] in *.

Section Tasks.

Variable r : pyval -> string.






Lemma perform_financial_review_safe (bn bid pm : pyval) :
  safe (perform_financial_review r bn bid pm).
Proof.
  unfold perform_financial_review. apply safe_try_except.
  intros e. eval_run. constructor.
Qed.

Lemma perform_budget_adjustment_safe (bn bid pm : pyval) :
  safe (perform_budget_adjustment r bn bid pm).
Proof.
  unfold perform_budget_adjustment. apply safe_try_except.
  intros e. eval_run. constructor.
Qed.






Lemma handle_safe (d : dict) : safe (handle_task r (PDict d)).
Proof.
  unfold handle_task. cbn [py_get bind].
  destruct (py_eq_str _ "financial_review");
    [apply perform_financial_review_safe|].
  destruct (py_eq_str _ "budget_adjustment");
    [apply perform_budget_adjustment_safe|].
  eval_run. constructor.
Qed.



(** Every progress line written: the endpoint is its dispatch, and the
    handler is never entered. *)
Lemma execute_written (d : dict) (w : world) :
  refused w (execute_automated_task r (mkRequest (inr (PDict d)))) = None ->
  run w (execute_automated_task r (mkRequest (inr (PDict d)))) =
  run w (handle_task r (PDict d)).
Proof.
  unfold execute_automated_task, dispatch_task, log_task.
  cbn [json py_get print bind try_except run refused].
  intros H.
  do 4 (step_print; [discriminate H|]).
  apply run_try_safe, handle_safe.
Qed.

(** A body that does not parse gives the failed envelope of an unknown task. *)
Lemma execute_unparsable (e : exn) (w : world) :
  run w (execute_automated_task r (mkRequest (inl e))) =
  (Returned (PDict [("status", PStr "failed"); ("error", PStr (exc_str e));
                    ("task_type", PStr "unknown")]), []).
Proof. reflexivity. Qed.


End Tasks.

(* ================================================================== *)
(** ** The claims *)

Ltac in_list := cbn [In]; repeat (first [left; reflexivity | right]).

Ltac named_leaf Hleaves l :=
  let H := fresh "Hleaf" in
  assert (H := proj1 (Forall_forall _ _) Hleaves l);
  cbn [leaf_path leaf_factor leaf_suffix scaled] in H;
  rewrite ?append_empty in H;
  apply H; unfold full_leaves, monetary_leaves, pricing_leaves, fallback_leaves;
  cbn [List.app]; in_list.

Section Claims.

Variable r : pyval -> string.

(** C1 (the code departs from it).  For every business profile in which
    [initial_investment] is absent ([None]), whatever the strategic plan,
    the completion service and the clock, [analyze_financial_aspects]
    returns no report: no value is the result of the call, so there is no
    baseline report whose monetary leaves hold the placeholder. *)
Theorem no_report_without_investment (bd sp : dict) (w : world) :
  profile_investment bd = PNone ->
  forall R, outcome_of w (analyze_financial_aspects r bd sp) <> Returned R.
Proof.
  unfold profile_investment, outcome_of. intros Hnone R.
  unfold analyze_financial_aspects. cbv zeta. rewrite Hnone.
  rewrite analysis_prompt_none. cbn [bind run fst]. discriminate.
Qed.

(** C2 (the code departs from it).  For every profile in which
    [initial_investment] is absent, whatever the strategic plan and the
    world, [analyze_financial_aspects] raises [TypeError] while it formats
    the prompt, before any request is sent. *)
Theorem analysis_raises_without_investment (bd sp : dict) (w : world) :
  profile_investment bd = PNone ->
  run w (analyze_financial_aspects r bd sp) =
  (Raised (TypeError "unsupported format string passed to NoneType.__format__"), []).
Proof.
  unfold profile_investment. intros Hnone.
  unfold analyze_financial_aspects. cbv zeta. rewrite Hnone.
  rewrite analysis_prompt_none. reflexivity.
Qed.

(** C3 (as amended).  For every profile and strategic plan, if the
    completion-service call is made and fails with any exception,
    [analyze_financial_aspects] returns the reduced fallback report: no
    [cost_structure], [cash_flow_management] or [ai_analysis] key, the three
    pricing labels, the four static recommendations, and [year_1], [year_2]
    and the funding [total] equal to the investment times 0.5, times 0.75
    and itself, comma-grouped with the suffix [" THB"], when the investment
    is a non-zero number, the placeholder when it is zero. *)
Theorem fallback_report_on_failed_call (bd sp : dict) (w : world) (e : exn) :
  service_answer w (analyze_financial_aspects r bd sp) = Some (Failed e) ->
  exists x F,
    float_value (profile_investment bd) = Some x
    /\ outcome_of w (analyze_financial_aspects r bd sp) = Returned F
    /\ fallback_shape (py_str r (profile_type bd)) F
    /\ Forall (fun l =>
                 at_path (leaf_path l) F =
                 Some (PStr (if truthy (profile_investment bd)
                             then format_comma0 (scaled x l) ++ " THB"
                             else "To be determined")))
              fallback_leaves.
Proof.
  intros Hans.
  destruct (analyze_called r bd sp w _ Hans) as (x & Hx & Hout).
  exists x.
  destruct (truthy (profile_investment bd)) eqn:Ht.
  - destruct (fallback_report_truthy r (profile_name bd) (profile_type bd)
                (profile_investment bd) x Hx Ht) as (F & HF & Hleaves & Hshape).
    exists F. split; [exact Hx|]. split; [now apply Hout|]. split; assumption.
  - destruct (fallback_report_falsy r (profile_name bd) (profile_type bd)
                (profile_investment bd) Ht) as (F & HF & Hleaves & Hshape).
    exists F. split; [exact Hx|]. split; [now apply Hout|]. split; assumption.
Qed.

(** C4.  For every [initial_investment = v > 0], each monetary leaf of the
    successful baseline report is [v] times the fraction of that leaf,
    formatted as currency: [year_1] is [v * 0.8], the funding [total] is [v]
    itself (fraction 1.0), the monthly [rent] is [v * 0.02], the equipment
    is [v * 0.4], the marketing is [v * 0.15], and so for every leaf of the
    table [full_leaves]. *)
Theorem monetary_leaves_scale_the_investment
  (bd sp : dict) (w : world) (text : string) :
  positive_number (profile_investment bd) = true ->
  service_answer w (analyze_financial_aspects r bd sp) = Some (Completed text) ->
  exists x R,
    float_value (profile_investment bd) = Some x
    /\ outcome_of w (analyze_financial_aspects r bd sp) = Returned R
    /\ at_path [Key "financial_projections"; Key "revenue_forecast"; Key "year_1"] R =
       Some (PStr ("$" ++ format_comma0 (float_mul x f0_8)))
    /\ at_path [Key "funding_requirements"; Key "initial_investment"; Key "total"] R =
       Some (PStr ("$" ++ format_comma0 x))
    /\ at_path [Key "cost_structure"; Key "fixed_costs"; Key "rent"] R =
       Some (PStr ("$" ++ format_comma0 (float_mul x f0_02) ++ "/month"))
    /\ at_path [Key "funding_requirements"; Key "initial_investment";
                Key (py_str r (profile_type bd) ++ "_equipment")] R =
       Some (PStr ("$" ++ format_comma0 (float_mul x f0_4)))
    /\ at_path [Key "funding_requirements"; Key "initial_investment";
                Key "marketing"] R =
       Some (PStr ("$" ++ format_comma0 (float_mul x f0_15)))
    /\ Forall (fun l => at_path (leaf_path l) R =
                        Some (PStr ("$" ++ format_comma0 (scaled x l)
                                    ++ leaf_suffix l)))
              (full_leaves (py_str r (profile_type bd))).
Proof.
  intros Hpos Hans.
  destruct (analyze_called r bd sp w _ Hans) as (x & Hx & Hout).
  destruct (full_report_truthy r (profile_name bd) (profile_type bd)
              (profile_industry bd) (profile_investment bd) x text Hx
              (positive_truthy _ Hpos)) as (R & HR & Hleaves & _).
  exists x, R. split; [exact Hx|]. split; [now apply Hout|].
  repeat split.
  - named_leaf Hleaves
      (mkLeaf [Key "financial_projections"; Key "revenue_forecast"; Key "year_1"]
              (Some f0_8) "").
  - named_leaf Hleaves
      (mkLeaf [Key "funding_requirements"; Key "initial_investment"; Key "total"]
              None "").
  - named_leaf Hleaves
      (mkLeaf [Key "cost_structure"; Key "fixed_costs"; Key "rent"]
              (Some f0_02) "/month").
  - named_leaf Hleaves
      (mkLeaf [Key "funding_requirements"; Key "initial_investment";
               Key (py_str r (profile_type bd) ++ "_equipment")] (Some f0_4) "").
  - named_leaf Hleaves
      (mkLeaf [Key "funding_requirements"; Key "initial_investment"; Key "marketing"]
              (Some f0_15) "").
  - exact Hleaves.
Qed.

(** C5 (as amended).  For every call to [receive_message] whose
    [business_data] holds [initial_investment] 100000: when the completion
    call succeeds, the returned [financial_analysis] has the funding [total]
    ["$100,000"] and an [ai_analysis] field equal to the text the service
    returned; when the call fails, the [total] is ["100,000 THB"] and there
    is no [ai_analysis] field. *)
Theorem investment_100000_total_and_narrative (m : MCPMessage) (w : world) :
  profile_investment (business_data m) = PInt 100000 ->
  (forall text,
      service_answer w (receive_message r m) = Some (Completed text) ->
      exists resp,
        outcome_of w (receive_message r m) = Returned (Http200 resp)
        /\ at_path [Key "funding_requirements"; Key "initial_investment"; Key "total"]
                   (financial_analysis resp) = Some (PStr "$100,000")
        /\ at_path [Key "ai_analysis"] (financial_analysis resp) = Some (PStr text))
  /\ (forall e,
        service_answer w (receive_message r m) = Some (Failed e) ->
        exists resp,
          outcome_of w (receive_message r m) = Returned (Http200 resp)
          /\ at_path [Key "funding_requirements"; Key "initial_investment"; Key "total"]
                     (financial_analysis resp) = Some (PStr "100,000 THB")
          /\ has_key "ai_analysis" (financial_analysis resp) = false).
Proof.
  intros Hinv. split.
  - intros text Hans. rewrite receive_message_answer in Hans.
    destruct (analyze_called r _ _ w _ Hans) as (x & Hx & Hout).
    assert (Ht : truthy (profile_investment (business_data m)) = true)
      by now rewrite Hinv.
    destruct (full_report_truthy r (profile_name (business_data m))
                (profile_type (business_data m)) (profile_industry (business_data m))
                (profile_investment (business_data m)) x text Hx Ht)
      as (R & HR & Hleaves & Hai & _).
    unfold outcome_of. rewrite receive_message_run, (Hout R HR). cbn [fst].
    eexists. split; [reflexivity|]. cbn [financial_analysis]. split; [|exact Hai].
    rewrite Hinv in Hx. vm_compute in Hx. injection Hx as <-.
    named_leaf Hleaves
      (mkLeaf [Key "funding_requirements"; Key "initial_investment"; Key "total"]
              None "").
  - intros e Hans. rewrite receive_message_answer in Hans.
    destruct (analyze_called r _ _ w _ Hans) as (x & Hx & Hout).
    assert (Ht : truthy (profile_investment (business_data m)) = true)
      by now rewrite Hinv.
    destruct (fallback_report_truthy r (profile_name (business_data m))
                (profile_type (business_data m))
                (profile_investment (business_data m)) x Hx Ht)
      as (F & HF & Hleaves & _ & _ & Hno & _).
    unfold outcome_of. rewrite receive_message_run, (Hout F HF). cbn [fst].
    eexists. split; [reflexivity|]. cbn [financial_analysis]. split; [|exact Hno].
    rewrite Hinv in Hx. vm_compute in Hx. injection Hx as <-.
    named_leaf Hleaves
      (mkLeaf [Key "funding_requirements"; Key "initial_investment"; Key "total"]
              None "").
Qed.


(** C7 (the code departs from it).  For every request whose body parses to
    a JSON value that is not an object, [execute_automated_task] raises
    [AttributeError] past its boundary: the first [data.get] raises, and the
    handler, which reads [data.get("task_type")] again, raises too. *)
Theorem execute_task_raises_on_non_object (data : pyval) (w : world) :
  is_dict data = false ->
  run w (execute_automated_task r (mkRequest (inr data))) =
  (Raised (AttributeError (quote ++ type_name data ++ quote
                           ++ " object has no attribute " ++ quote ++ "get" ++ quote)),
   []).
Proof.
  intros Hdata. unfold execute_automated_task. cbn [json].
  destruct data as [| b | z | x | s | l | d]; try discriminate; reflexivity.
Qed.

(** C8 (the code departs from it).  When [data] is bound to a JSON value
    that is not an object, the top-level exception handler of the endpoint
    returns no mapping: whatever exception it handles, it raises
    [AttributeError] while it builds the [task_type] entry. *)
Theorem task_error_handler_raises_on_non_object (data : pyval) (e : exn) :
  is_dict data = false ->
  task_error (Some data) e =
  Raise (AttributeError (quote ++ type_name data ++ quote
                         ++ " object has no attribute " ++ quote ++ "get" ++ quote)).
Proof.
  intros Hdata. unfold task_error.
  destruct data as [| b | z | x | s | l | d]; try discriminate; reflexivity.
Qed.

(** C9 (as amended).  For every [initial_investment] that is present and
    passes the test [if initial_investment] (a non-zero number): every
    monetary leaf of the successful full report is ["$"] followed by the
    comma-grouped amount (and ["/month"] on the monthly leaves), while every
    monetary leaf of the reduced fallback report is the comma-grouped amount
    followed by [" THB"] and holds no ["$"]. *)
Theorem two_currency_formats (bd sp : dict) (w : world) :
  truthy (profile_investment bd) = true ->
  (forall text,
      service_answer w (analyze_financial_aspects r bd sp) = Some (Completed text) ->
      exists x R,
        float_value (profile_investment bd) = Some x
        /\ outcome_of w (analyze_financial_aspects r bd sp) = Returned R
        /\ Forall (fun l => at_path (leaf_path l) R =
                            Some (PStr ("$" ++ format_comma0 (scaled x l)
                                        ++ leaf_suffix l)))
                  (full_leaves (py_str r (profile_type bd))))
  /\ (forall e,
        service_answer w (analyze_financial_aspects r bd sp) = Some (Failed e) ->
        exists x F,
          float_value (profile_investment bd) = Some x
          /\ outcome_of w (analyze_financial_aspects r bd sp) = Returned F
          /\ Forall (fun l =>
                       at_path (leaf_path l) F =
                       Some (PStr (format_comma0 (scaled x l) ++ " THB"))
                       /\ no_dollar (format_comma0 (scaled x l) ++ " THB") = true)
                    fallback_leaves).
Proof.
  intros Ht. split.
  - intros text Hans.
    destruct (analyze_called r bd sp w _ Hans) as (x & Hx & Hout).
    destruct (full_report_truthy r (profile_name bd) (profile_type bd)
                (profile_industry bd) (profile_investment bd) x text Hx Ht)
      as (R & HR & Hleaves & _).
    exists x, R. split; [exact Hx|]. split; [now apply Hout | exact Hleaves].
  - intros e Hans.
    destruct (analyze_called r bd sp w _ Hans) as (x & Hx & Hout).
    destruct (fallback_report_truthy r (profile_name bd) (profile_type bd)
                (profile_investment bd) x Hx Ht) as (F & HF & Hleaves & _).
    exists x, F. split; [exact Hx|]. split; [now apply Hout|].
    eapply Forall_impl; [|exact Hleaves].
    intros l Hl. split; [exact Hl | apply no_dollar_thb].
Qed.

(** C10.  The two generators do not depend on their [parameters] argument;
    for any two task descriptors that agree on every key but [parameters],
    the dispatch (the four values read and the branch taken, the generic
    result included) is the same program, and the endpoint, which prints
    [parameters] in a progress line first, gives the same result and sends
    the same requests in every world (the same service answers, the same
    clock) in which the progress lines of both are written. *)
Theorem parameters_never_read
  (bn bid p1 p2 : pyval) (d1 d2 : dict) (w : world) :
  (forall k, k <> "parameters" -> dict_lookup k d1 = dict_lookup k d2) ->
  perform_financial_review r bn bid p1 = perform_financial_review r bn bid p2
  /\ perform_budget_adjustment r bn bid p1 = perform_budget_adjustment r bn bid p2
  /\ handle_task r (PDict d1) = handle_task r (PDict d2)
  /\ (refused w (execute_automated_task r (mkRequest (inr (PDict d1)))) = None ->
      refused w (execute_automated_task r (mkRequest (inr (PDict d2)))) = None ->
      run w (execute_automated_task r (mkRequest (inr (PDict d1)))) =
      run w (execute_automated_task r (mkRequest (inr (PDict d2))))).
Proof.
  intros Heq. split; [reflexivity|]. split; [reflexivity|].
  assert (Hsame : handle_task r (PDict d1) = handle_task r (PDict d2)).
  { unfold handle_task. cbn [py_get bind]. unfold dict_get.
    rewrite (Heq "task_type"), (Heq "business_name"), (Heq "business_id")
      by discriminate.
    destruct (py_eq_str _ "financial_review"); [reflexivity|].
    destruct (py_eq_str _ "budget_adjustment"); reflexivity. }
  split; [exact Hsame|].
  intros H1 H2. now rewrite (execute_written r d1 w H1), (execute_written r d2 w H2), Hsame.
Qed.

End Claims.

(* ================================================================== *)
(** ** Runs of the analysis, by what the prompt gives *)

Section Outcomes.

Variable r : pyval -> string.

(** Both reports are built for every numeric investment. *)
Lemma full_report_returns (bn bt ind v : pyval) (x : spec_float) (text : string) :
  float_value v = Some x -> exists R, full_report r bn bt ind v text = Ret R.
Proof.
  intros Hx. destruct (truthy v) eqn:Ht.
  - destruct (full_report_truthy r bn bt ind v x text Hx Ht) as (R & HR & _).
    now exists R.
  - destruct (full_report_falsy r bn bt ind v text Ht) as (R & HR & _).
    now exists R.
Qed.

Lemma fallback_report_returns (bn bt v : pyval) (x : spec_float) :
  float_value v = Some x -> exists F, fallback_report r bn bt v = Ret F.
Proof.
  intros Hx. destruct (truthy v) eqn:Ht.
  - destruct (fallback_report_truthy r bn bt v x Hx Ht) as (F & HF & _).
    now exists F.
  - destruct (fallback_report_falsy r bn bt v Ht) as (F & HF & _).
    now exists F.
Qed.

(** The analysis is its prompt followed by the guarded call. *)
Lemma analyze_unfold (bd sp : dict) :
  analyze_financial_aspects r bd sp =
  (prompt <- prompt_of r bd sp ;;
   try_except
     (text <- acreate (analysis_request r bd prompt) ;;
      full_report r (profile_name bd) (profile_type bd) (profile_industry bd)
        (profile_investment bd) text)
     (fun _ => fallback_report r (profile_name bd) (profile_type bd)
                 (profile_investment bd))).
Proof. reflexivity. Qed.

(** The prompt is built exactly when its three fallible fields are. *)
Lemma prompt_of_cases (bd sp : dict) :
  (exists p x g,
     prompt_of r bd sp = Ret p
     /\ float_value (profile_investment bd) = Some x
     /\ py_join ", " (dict_get bd "growth_goals" (PList [])) = Ret g
     /\ is_dict (dict_get sp "growth_strategy" (PDict [])) = true)
  \/ (exists e,
        prompt_of r bd sp = Raise e
        /\ (py_format_comma0 (profile_investment bd) = Raise e
            \/ (exists x, float_value (profile_investment bd) = Some x)
               /\ (py_join ", " (dict_get bd "growth_goals" (PList [])) = Raise e
                   \/ (exists g, py_join ", " (dict_get bd "growth_goals" (PList []))
                                 = Ret g)
                      /\ py_get (dict_get sp "growth_strategy" (PDict []))
                           "short_term_goals" (PList []) = Raise e))).
Proof.
  unfold prompt_of, analysis_prompt.
  destruct (py_format_cases (profile_investment bd))
    as [(x & Hx & ->) | (e & Hx & ->)]; cbn [bind].
  2:{ right. exists e. split; [reflexivity | now left]. }
  destruct (py_join_cases ", " (dict_get bd "growth_goals" (PList [])))
    as [[g ->] | [e ->]]; cbn [bind].
  2:{ right. exists e. split; [reflexivity|]. right.
      split; [now exists x | now left]. }
  destruct (dict_get sp "growth_strategy" (PDict [])) eqn:Egs; cbn [py_get bind];
    try (right; eexists; split; [reflexivity|]; right; split; [now exists x|];
         right; split; [now exists g | reflexivity]).
  left. eexists. exists x, g.
  split; [reflexivity|]. split; [exact Hx|]. split; reflexivity.
Qed.

(** A run of the guarded call: one request and a report. *)
Lemma run_after_prompt (bn bt ind v : pyval) (x : spec_float) (req : chat_request)
  (w : world) :
  float_value v = Some x ->
  exists R,
    run w (try_except
             (text <- acreate req ;; full_report r bn bt ind v text)
             (fun _ => fallback_report r bn bt v)) = (Returned R, [req])
    /\ match llm w req with
       | Completed text => full_report r bn bt ind v text = Ret R
       | Failed _ => fallback_report r bn bt v = Ret R
       end.
Proof.
  intros Hx. rewrite run_try_except, run_bind, run_acreate.
  destruct (llm w req) as [text | e].
  - destruct (full_report_returns bn bt ind v x text Hx) as [R HR].
    exists R. rewrite HR. cbn [run List.app]. split; reflexivity.
  - destruct (fallback_report_returns bn bt v x Hx) as [F HF].
    exists F. rewrite HF. cbn [run List.app]. split; reflexivity.
Qed.

(** When the prompt raises, so does the analysis, and nothing is sent. *)
Lemma run_prompt_raises (bd sp : dict) (w : world) (e : exn) :
  prompt_of r bd sp = Raise e ->
  run w (analyze_financial_aspects r bd sp) = (Raised e, []).
Proof. intros H. rewrite analyze_unfold, H. reflexivity. Qed.

(** When the prompt is built, the analysis sends it and returns. *)
Lemma run_prompt_built (bd sp : dict) (w : world) (p : string) (x : spec_float) :
  prompt_of r bd sp = Ret p ->
  float_value (profile_investment bd) = Some x ->
  exists R,
    run w (analyze_financial_aspects r bd sp) =
    (Returned R, [analysis_request r bd p])
    /\ match llm w (analysis_request r bd p) with
       | Completed text =>
           full_report r (profile_name bd) (profile_type bd) (profile_industry bd)
             (profile_investment bd) text = Ret R
       | Failed _ =>
           fallback_report r (profile_name bd) (profile_type bd)
             (profile_investment bd) = Ret R
       end.
Proof.
  intros Hp Hx. rewrite analyze_unfold, Hp. cbn [bind].
  now apply run_after_prompt with (x := x).
Qed.

(** The items before the first one that is no string are joined; that one
    is reported with its index. *)
Lemma join_items_mixed (ss : list string) (v : pyval) (tl : list pyval) (i : nat) :
  (forall s, v <> PStr s) ->
  join_items i (map PStr ss ++ v :: tl) =
  Raise (TypeError ("sequence item " ++ decimal_of_Z (Z.of_nat (i + List.length ss))
                    ++ ": expected str instance, " ++ type_name v ++ " found")).
Proof.
  intros Hv. revert i. induction ss as [|s ss IH]; intros i.
  - cbn [map List.app List.length]. rewrite Nat.add_0_r.
    destruct v; try reflexivity. now destruct (Hv s).
  - cbn [map List.app List.length join_items]. rewrite IH. cbn [bind].
    now rewrite Nat.add_succ_r.
Qed.

(** The name, the type and the narrative of the full report. *)
Lemma full_report_echo (bn bt ind v : pyval) (x : spec_float) (text : string) :
  float_value v = Some x ->
  exists R,
    full_report r bn bt ind v text = Ret R
    /\ at_path [Key "business_name"] R = Some bn
    /\ at_path [Key "business_type"] R = Some bt
    /\ at_path [Key "ai_analysis"] R = Some (PStr text).
Proof.
  intros Hx. unfold full_report. destruct (truthy v).
  - rewrite !(usd_number _ _ _ _ Hx), (usd_plain_number _ _ Hx).
    eval_display. eexists. split; [reflexivity|]. repeat split; leaf_goal.
  - eval_display. eexists. split; [reflexivity|]. repeat split; leaf_goal.
Qed.

Lemma fallback_report_echo (bn bt v : pyval) (x : spec_float) :
  float_value v = Some x ->
  exists F,
    fallback_report r bn bt v = Ret F
    /\ at_path [Key "business_name"] F = Some bn
    /\ at_path [Key "business_type"] F = Some bt
    /\ has_key "ai_analysis" F = false.
Proof.
  intros Hx. unfold fallback_report. destruct (truthy v).
  - rewrite !(thb_number _ _ _ Hx), (thb_plain_number _ _ Hx).
    eval_display. eexists. split; [reflexivity|]. repeat split; leaf_goal.
  - eval_display. eexists. split; [reflexivity|]. repeat split; leaf_goal.
Qed.

(** Every leaf of the full report that carries no amount is the one of the
    report without an investment. *)
Lemma full_report_static (bn bt ind v : pyval) (x : spec_float) (text : string) :
  float_value v = Some x ->
  exists R R0,
    full_report r bn bt ind v text = Ret R
    /\ full_report r bn bt ind PNone text = Ret R0
    /\ Forall (fun p => at_path p R = at_path p R0) (non_monetary_paths (py_str r bt)).
Proof.
  intros Hx. unfold full_report. cbn [truthy]. destruct (truthy v).
  - rewrite !(usd_number _ _ _ _ Hx), (usd_plain_number _ _ Hx).
    eval_display. eexists. eexists. split; [reflexivity|]. split; [reflexivity|].
    unfold non_monetary_paths.
    repeat (apply Forall_cons; [leaf_goal |]). apply Forall_nil.
  - eval_display. eexists. eexists. split; [reflexivity|]. split; [reflexivity|].
    apply Forall_forall. reflexivity.
Qed.

End Outcomes.

(* ================================================================== *)
(** ** Further properties of the analysis and of its endpoint *)

Section AnalysisProperties.

Variable r : pyval -> string.

(** X1.  [health_check] answers in every world with the same three entries:
    status ["healthy"], agent type ["financial"] and the reading of the
    clock.  It sends no request to the completion service and never
    raises. *)
Theorem health_check_reports_healthy (w : world) :
  run w health_check =
  (Returned (PDict [("status", PStr "healthy"); ("agent_type", PStr "financial");
                    ("timestamp", PStr (now w))]),
   []).
Proof.
  unfold health_check. eval_run. reflexivity.
Qed.

(** X2.  [receive_message] never raises anything but its [HTTPException]:
    when the analysis returns a report, the answer is the response model
    with that report, the [agent_type] and [request_id] of the message and
    the reading of the clock as timestamp; when the analysis raises [e], the
    answer is status 500 with detail ["Financial analysis failed: "] followed
    by [str(e)].  The requests it sends are those of the analysis. *)
Theorem receive_message_answers_200_or_500 (m : MCPMessage) (w : world) :
  let analysis := analyze_financial_aspects r (business_data m) (strategic_plan m) in
  calls_of w (receive_message r m) = calls_of w analysis
  /\ ((exists a,
         outcome_of w analysis = Returned a
         /\ outcome_of w (receive_message r m) =
            Returned (Http200 (mkResponse (agent_type m) a (now w) (request_id m))))
      \/ (exists e,
            outcome_of w analysis = Raised e
            /\ outcome_of w (receive_message r m) =
               Returned (HTTPException 500
                           ("Financial analysis failed: " ++ exc_str e)))).
Proof.
  cbv zeta. unfold calls_of at 1. unfold outcome_of at 2 4.
  rewrite receive_message_run. cbn [fst snd]. split; [reflexivity|].
  destruct (outcome_of w (analyze_financial_aspects r (business_data m)
                            (strategic_plan m))) as [a | e].
  - left. exists a. split; reflexivity.
  - right. exists e. split; reflexivity.
Qed.

(** X3.  A message whose business data has no [initial_investment] (or a
    null one) is answered with status 500 and the text of the [TypeError]
    that the prompt raises; the completion service is not called. *)
Theorem missing_investment_is_answered_500 (m : MCPMessage) (w : world) :
  profile_investment (business_data m) = PNone ->
  run w (receive_message r m) =
  (Returned (HTTPException 500
      "Financial analysis failed: unsupported format string passed to NoneType.__format__"),
   []).
Proof.
  intros Hnone.
  rewrite receive_message_run. unfold outcome_of, calls_of.
  rewrite (run_prompt_raises r _ _ w
             (TypeError "unsupported format string passed to NoneType.__format__")).
  - reflexivity.
  - unfold prompt_of. rewrite Hnone. apply analysis_prompt_none.
Qed.

(** X4.  [analyze_financial_aspects] raises only while it builds the prompt,
    before any request: a run either raises what the prompt raises, with no
    request sent, or sends exactly one request (model ["gpt-3.5-turbo"], the
    system text of the business type and industry, the prompt, 1500 tokens,
    temperature 0.7) and returns a report, whatever the service answers. *)
Theorem analysis_raises_only_before_the_call (bd sp : dict) (w : world) :
  (exists e,
     prompt_of r bd sp = Raise e
     /\ run w (analyze_financial_aspects r bd sp) = (Raised e, []))
  \/ (exists R prompt,
        prompt_of r bd sp = Ret prompt
        /\ run w (analyze_financial_aspects r bd sp) =
           (Returned R,
            [mkChat "gpt-3.5-turbo"
               (analysis_system r (profile_type bd) (profile_industry bd))
               prompt 1500 f0_7])).
Proof.
  destruct (prompt_of_cases r bd sp) as [(p & x & g & Hp & Hx & _) | (e & He & _)].
  - right. destruct (run_prompt_built r bd sp w p x Hp Hx) as (R & HR & _).
    exists R, p. split; [exact Hp | exact HR].
  - left. exists e. split; [exact He | now apply run_prompt_raises].
Qed.

(** X5.  The analysis returns a report exactly when the investment is a
    number that converts to a float, the growth goals can be joined (a list
    of strings, a string or a mapping) and the growth strategy of the plan
    is a mapping (or absent); otherwise it raises. *)
Theorem analysis_returns_iff_inputs_are_typed (bd sp : dict) (w : world) :
  (exists R, outcome_of w (analyze_financial_aspects r bd sp) = Returned R)
  <-> ((exists x, float_value (profile_investment bd) = Some x)
       /\ (exists g, py_join ", " (dict_get bd "growth_goals" (PList [])) = Ret g)
       /\ is_dict (dict_get sp "growth_strategy" (PDict [])) = true).
Proof.
  unfold outcome_of.
  destruct (prompt_of_cases r bd sp)
    as [(p & x & g & Hp & Hx & Hg & Hd) | (e & He & Hwhy)].
  - destruct (run_prompt_built r bd sp w p x Hp Hx) as (R & HR & _).
    rewrite HR. cbn [fst]. split.
    + intros _. split; [now exists x|]. split; [now exists g | exact Hd].
    + intros _. now exists R.
  - rewrite (run_prompt_raises r bd sp w e He). cbn [fst]. split.
    + intros [R HR]. discriminate.
    + intros ([x Hx] & [g Hg] & Hd). exfalso.
      destruct Hwhy as [Hf | (_ & [Hj | (_ & Hget)])].
      * rewrite (py_format_number _ _ Hx) in Hf. discriminate.
      * rewrite Hg in Hj. discriminate.
      * destruct (dict_get sp "growth_strategy" (PDict [])); discriminate.
Qed.

(** X6.  An [initial_investment] given as text (a JSON string, digits
    included) is not converted: the analysis raises [ValueError] from the
    format of the prompt and sends no request. *)
Theorem text_investment_raises_value_error (bd sp : dict) (w : world) (s : string) :
  profile_investment bd = PStr s ->
  run w (analyze_financial_aspects r bd sp) =
  (Raised (ValueError "Unknown format code 'f' for object of type 'str'"), []).
Proof.
  intros Hs. apply run_prompt_raises.
  unfold prompt_of, analysis_prompt. rewrite Hs. reflexivity.
Qed.

(** X7.  With a numeric investment, growth goals that hold an item that is
    no string make the analysis raise [TypeError], naming the index and the
    type of the first such item; no request is sent. *)
Theorem mixed_growth_goals_raise_type_error
  (bd sp : dict) (w : world) (x : spec_float)
  (ss : list string) (v : pyval) (tl : list pyval) :
  float_value (profile_investment bd) = Some x ->
  dict_get bd "growth_goals" (PList []) = PList (map PStr ss ++ v :: tl) ->
  (forall s, v <> PStr s) ->
  run w (analyze_financial_aspects r bd sp) =
  (Raised (TypeError ("sequence item " ++ decimal_of_Z (Z.of_nat (List.length ss))
                      ++ ": expected str instance, " ++ type_name v ++ " found")),
   []).
Proof.
  intros Hx Hg Hv. apply run_prompt_raises.
  unfold prompt_of, analysis_prompt.
  rewrite (py_format_number _ _ Hx), Hg. cbn [bind py_join].
  rewrite (join_items_mixed ss v tl 0 Hv). reflexivity.
Qed.

(** X8.  With a numeric investment and growth goals that can be joined, a
    [growth_strategy] of the plan that is present and is no mapping (a null,
    a string, a list) makes the analysis raise [AttributeError] for its
    [.get]; no request is sent. *)
Theorem non_mapping_growth_strategy_raises
  (bd sp : dict) (w : world) (x : spec_float) (goals : string) (v : pyval) :
  float_value (profile_investment bd) = Some x ->
  py_join ", " (dict_get bd "growth_goals" (PList [])) = Ret goals ->
  dict_lookup "growth_strategy" sp = Some v ->
  is_dict v = false ->
  run w (analyze_financial_aspects r bd sp) =
  (Raised (AttributeError (quote ++ type_name v ++ quote
                           ++ " object has no attribute " ++ quote ++ "get" ++ quote)),
   []).
Proof.
  intros Hx Hg Hv Hd. apply run_prompt_raises.
  unfold prompt_of, analysis_prompt.
  rewrite (py_format_number _ _ Hx), Hg. cbn [bind].
  unfold dict_get at 1. rewrite Hv.
  destruct v; try discriminate; reflexivity.
Qed.

(** X9.  The report depends on four fields of the profile and on the answer
    of the service only: two runs whose profiles agree on [business_name],
    [business_type], [industry] and [initial_investment], and whose service
    answers are both failures or the same text, return the same report,
    whatever the other fields, the strategic plans, the exceptions and the
    clocks are. *)
Theorem report_depends_on_four_fields_and_the_answer
  (bd1 bd2 sp1 sp2 : dict) (w1 w2 : world) (o1 o2 : outcome) :
  profile_name bd1 = profile_name bd2 ->
  profile_type bd1 = profile_type bd2 ->
  profile_industry bd1 = profile_industry bd2 ->
  profile_investment bd1 = profile_investment bd2 ->
  service_answer w1 (analyze_financial_aspects r bd1 sp1) = Some o1 ->
  service_answer w2 (analyze_financial_aspects r bd2 sp2) = Some o2 ->
  completed_text o1 = completed_text o2 ->
  outcome_of w1 (analyze_financial_aspects r bd1 sp1) =
  outcome_of w2 (analyze_financial_aspects r bd2 sp2).
Proof.
  intros Hn Ht Hi Hv H1 H2 Ho.
  destruct (analyze_called r bd1 sp1 w1 o1 H1) as (x1 & Hx1 & Hout1).
  destruct (analyze_called r bd2 sp2 w2 o2 H2) as (x2 & Hx2 & Hout2).
  destruct o1 as [t1 | e1], o2 as [t2 | e2]; cbn [completed_text] in Ho;
    try discriminate.
  - injection Ho as <-.
    destruct (full_report_returns r (profile_name bd1) (profile_type bd1)
                (profile_industry bd1) (profile_investment bd1) x1 t1 Hx1)
      as [R HR].
    rewrite (Hout1 R HR). rewrite Hn, Ht, Hi, Hv in HR. now rewrite (Hout2 R HR).
  - destruct (fallback_report_returns r (profile_name bd1) (profile_type bd1)
                (profile_investment bd1) x1 Hx1) as [F HF].
    rewrite (Hout1 F HF). rewrite Hn, Ht, Hv in HF. now rewrite (Hout2 F HF).
Qed.

(** X10.  Whenever the service was called, the returned report echoes the
    [business_name] and [business_type] of the profile (the empty string
    when absent); after a completed call its [ai_analysis] is the text of
    the service, unchanged, and after a failed call it has no [ai_analysis]
    key. *)
Theorem report_echoes_name_type_and_narrative
  (bd sp : dict) (w : world) (o : outcome) :
  service_answer w (analyze_financial_aspects r bd sp) = Some o ->
  exists R,
    outcome_of w (analyze_financial_aspects r bd sp) = Returned R
    /\ at_path [Key "business_name"] R = Some (dict_get bd "business_name" (PStr ""))
    /\ at_path [Key "business_type"] R = Some (dict_get bd "business_type" (PStr ""))
    /\ match o with
       | Completed text => at_path [Key "ai_analysis"] R = Some (PStr text)
       | Failed _ => has_key "ai_analysis" R = false
       end.
Proof.
  intros Hans.
  destruct (analyze_called r bd sp w o Hans) as (x & Hx & Hout).
  destruct o as [text | e].
  - destruct (full_report_echo r (profile_name bd) (profile_type bd)
                (profile_industry bd) (profile_investment bd) x text Hx)
      as (R & HR & Hn & Ht & Hai).
    exists R. split; [exact (Hout R HR)|]. split; [exact Hn|]. split; assumption.
  - destruct (fallback_report_echo r (profile_name bd) (profile_type bd)
                (profile_investment bd) x Hx) as (F & HF & Hn & Ht & Hai).
    exists F. split; [exact (Hout F HF)|]. split; [exact Hn|]. split; assumption.
Qed.

(** X11.  An investment that is present and zero (0, 0.0, [False]) is
    treated as no investment: after a completed call every monetary leaf
    outside [pricing_strategy] is the placeholder ["To be determined"] and
    the three pricing leaves are the pricing labels. *)
Theorem zero_investment_gives_placeholders
  (bd sp : dict) (w : world) (text : string) :
  truthy (profile_investment bd) = false ->
  service_answer w (analyze_financial_aspects r bd sp) = Some (Completed text) ->
  exists x R,
    float_value (profile_investment bd) = Some x
    /\ outcome_of w (analyze_financial_aspects r bd sp) = Returned R
    /\ Forall (fun l => at_path (leaf_path l) R = Some (PStr "To be determined"))
              (monetary_leaves (py_str r (profile_type bd)))
    /\ map (fun l => at_path (leaf_path l) R)
           (pricing_leaves (py_str r (profile_type bd))) =
       [Some (PStr "Market-based pricing"); Some (PStr "Value-based pricing");
        Some (PStr "Hourly rate")].
Proof.
  intros Ht Hans.
  destruct (analyze_called r bd sp w _ Hans) as (x & Hx & Hout).
  destruct (full_report_falsy r (profile_name bd) (profile_type bd)
              (profile_industry bd) (profile_investment bd) text Ht)
    as (R & HR & Hleaves & Hpricing & _).
  exists x, R. split; [exact Hx|]. split; [exact (Hout R HR)|].
  split; assumption.
Qed.

(** X12.  The investment changes the amounts only: two profiles that agree
    on [business_name], [business_type] and [industry], whatever their
    investments, get reports that agree on every leaf that carries no amount
    (the table [non_monetary_paths]) when the service completes both calls
    with the same text. *)
Theorem investment_changes_only_the_amounts
  (bd1 bd2 sp1 sp2 : dict) (w1 w2 : world) (text : string) :
  profile_name bd1 = profile_name bd2 ->
  profile_type bd1 = profile_type bd2 ->
  profile_industry bd1 = profile_industry bd2 ->
  service_answer w1 (analyze_financial_aspects r bd1 sp1) = Some (Completed text) ->
  service_answer w2 (analyze_financial_aspects r bd2 sp2) = Some (Completed text) ->
  exists R1 R2,
    outcome_of w1 (analyze_financial_aspects r bd1 sp1) = Returned R1
    /\ outcome_of w2 (analyze_financial_aspects r bd2 sp2) = Returned R2
    /\ Forall (fun p => at_path p R1 = at_path p R2)
              (non_monetary_paths (py_str r (profile_type bd1))).
Proof.
  intros Hn Ht Hi H1 H2.
  destruct (analyze_called r bd1 sp1 w1 _ H1) as (x1 & Hx1 & Hout1).
  destruct (analyze_called r bd2 sp2 w2 _ H2) as (x2 & Hx2 & Hout2).
  destruct (full_report_static r (profile_name bd1) (profile_type bd1)
              (profile_industry bd1) (profile_investment bd1) x1 text Hx1)
    as (R1 & R0 & HR1 & HR0 & Hs1).
  destruct (full_report_static r (profile_name bd2) (profile_type bd2)
              (profile_industry bd2) (profile_investment bd2) x2 text Hx2)
    as (R2 & R0' & HR2 & HR0' & Hs2).
  rewrite <- Hn, <- Ht, <- Hi in HR0'. rewrite <- Ht in Hs2.
  rewrite HR0 in HR0'. injection HR0' as <-.
  exists R1, R2. split; [exact (Hout1 R1 HR1)|]. split; [exact (Hout2 R2 HR2)|].
  rewrite Forall_forall in *. intros p Hp.
  now rewrite (Hs1 p Hp), (Hs2 p Hp).
Qed.

End AnalysisProperties.

(* ================================================================== *)
(** ** Further properties of the automated tasks *)

Section TaskProperties.

Variable r : pyval -> string.

(** X13.  [perform_financial_review] never raises and sends exactly one
    request (model ["gpt-3.5-turbo"], its fixed system text, 1000 tokens,
    temperature 0.7).  After a completed call the result echoes the name and
    the id it was given, dates the review with the clock, carries the text
    of the service and the same financial figures for every business; after
    a failed call it is the three-entry mapping with [str(e)]. *)
Theorem financial_review_result (bn bid pm : pyval) (w : world) :
  exists req m,
    run w (perform_financial_review r bn bid pm) = (Returned m, [req])
    /\ chat_model req = "gpt-3.5-turbo"
    /\ chat_system req =
       "You are an expert financial analyst providing insights for business financial health and growth."
    /\ chat_max_tokens req = 1000%Z
    /\ chat_temperature req = f0_7
    /\ match llm w req with
       | Completed text =>
           at_path [Key "status"] m = Some (PStr "completed")
           /\ at_path [Key "task_type"] m = Some (PStr "financial_review")
           /\ at_path [Key "business_name"] m = Some bn
           /\ at_path [Key "business_id"] m = Some bid
           /\ at_path [Key "review_date"] m = Some (PStr (now w))
           /\ at_path [Key "financial_analysis"] m = Some (PStr text)
           /\ at_path [Key "financial_data"] m =
              Some (PDict [("revenue", PInt 850000); ("expenses", PInt 680000);
                           ("profit_margin", PFloat (float_of_Z 20));
                           ("cash_flow", PInt 120000);
                           ("growth_rate", PFloat (float_of_Z 15))])
       | Failed e =>
           m = PDict [("status", PStr "failed"); ("error", PStr (exc_str e));
                      ("task_type", PStr "financial_review")]
       end.
Proof.
  unfold perform_financial_review. cbv zeta.
  match goal with |- context [acreate ?q] => exists q end.
  rewrite run_try_except, run_bind, run_acreate.
  destruct (llm w _) as [text | e]; eval_run;
    eexists; (split; [reflexivity|]);
    (split; [reflexivity|]); (split; [reflexivity|]);
    (split; [reflexivity|]); (split; [reflexivity|]).
  - repeat split; leaf_goal.
  - reflexivity.
Qed.

(** X14.  [perform_budget_adjustment] never raises and sends exactly one
    request (model ["gpt-3.5-turbo"], its fixed system text, 1000 tokens,
    temperature 0.7).  After a completed call the result echoes the name and
    the id it was given, dates the adjustment with the clock, carries the
    text of the service and the same four adjustments for every business;
    after a failed call it is the three-entry mapping with [str(e)]. *)
Theorem budget_adjustment_result (bn bid pm : pyval) (w : world) :
  exists req m,
    run w (perform_budget_adjustment r bn bid pm) = (Returned m, [req])
    /\ chat_model req = "gpt-3.5-turbo"
    /\ chat_system req =
       "You are a financial consultant providing budget optimization and resource allocation advice."
    /\ chat_max_tokens req = 1000%Z
    /\ chat_temperature req = f0_7
    /\ match llm w req with
       | Completed text =>
           at_path [Key "status"] m = Some (PStr "completed")
           /\ at_path [Key "task_type"] m = Some (PStr "budget_adjustment")
           /\ at_path [Key "business_name"] m = Some bn
           /\ at_path [Key "business_id"] m = Some bid
           /\ at_path [Key "adjustment_date"] m = Some (PStr (now w))
           /\ at_path [Key "budget_analysis"] m = Some (PStr text)
           /\ at_path [Key "budget_adjustments"] m =
              Some (PDict [("marketing_budget", PStr "+20%");
                           ("operational_costs", PStr "-5%");
                           ("technology_investment", PStr "+30%");
                           ("staff_training", PStr "+15%")])
       | Failed e =>
           m = PDict [("status", PStr "failed"); ("error", PStr (exc_str e));
                      ("task_type", PStr "budget_adjustment")]
       end.
Proof.
  unfold perform_budget_adjustment. cbv zeta.
  match goal with |- context [acreate ?q] => exists q end.
  rewrite run_try_except, run_bind, run_acreate.
  destruct (llm w _) as [text | e]; eval_run;
    eexists; (split; [reflexivity|]);
    (split; [reflexivity|]); (split; [reflexivity|]);
    (split; [reflexivity|]); (split; [reflexivity|]).
  - repeat split; leaf_goal.
  - reflexivity.
Qed.






End TaskProperties.

(* ================================================================== *)
(** ** Integers below 2^53 are floats, exactly *)

Lemma digits2_pos_bound (p : positive) :
  (2 ^ Zpos (digits2_pos p) <= 2 * Zpos p)%Z.
Proof.
  induction p as [q IH | q IH |]; cbn [digits2_pos].
  - rewrite Pos2Z.inj_succ, Z.pow_succ_r by lia. lia.
  - rewrite Pos2Z.inj_succ, Z.pow_succ_r by lia. lia.
  - cbn. lia.
Qed.

Lemma digits2_pos_le_53 (p : positive) :
  (Zpos p < 2 ^ 53)%Z -> (Zpos (digits2_pos p) <= 53)%Z.
Proof.
  intros Hp. pose proof (digits2_pos_bound p) as Hd.
  assert (H : (2 ^ Zpos (digits2_pos p) < 2 ^ 54)%Z).
  { change (2 ^ 54)%Z with (2 * 2 ^ 53)%Z. lia. }
  apply Z.pow_lt_mono_r_iff in H; lia.
Qed.

Lemma digits2_pos_shift (p k : positive) :
  digits2_pos (Pos.iter xO p k) = (digits2_pos p + k)%positive.
Proof.
  induction k as [|k IH] using Pos.peano_ind.
  - cbn [Pos.iter digits2_pos]. now rewrite Pos.add_1_r.
  - rewrite Pos.iter_succ. cbn [digits2_pos]. rewrite IH.
    now rewrite Pos.add_succ_r.
Qed.

Lemma Zpos_shift (p k : positive) :
  Zpos (Pos.iter xO p k) = (Zpos p * 2 ^ Zpos k)%Z.
Proof.
  induction k as [|k IH] using Pos.peano_ind.
  - cbn [Pos.iter]. rewrite Pos2Z.inj_xO. change (2 ^ 1)%Z with 2%Z. lia.
  - rewrite Pos.iter_succ, Pos2Z.inj_xO, IH, Pos2Z.inj_succ, Z.pow_succ_r by lia.
    lia.
Qed.

(** A mantissa of 53 digits with a small exponent is kept as it is. *)
Lemma binary_round_aux_53 (s : bool) (m : positive) (e : Z) :
  Zpos (digits2_pos m) = 53%Z -> (-1074 <= e <= 971)%Z ->
  binary_round_aux 53 1024 s (Zpos m) e loc_Exact = S754_finite s m e.
Proof.
  intros Hd He.
  assert (Hshift : (fexp 53 1024 (Zdigits2 (Zpos m) + e) - e = 0)%Z).
  { unfold fexp, emin, Zdigits2. rewrite Hd. lia. }
  unfold binary_round_aux, shr_fexp.
  cbn [shr_record_of_loc]. rewrite Hshift. cbn [shr shr_m loc_of_shr_record
    round_nearest_even]. rewrite Hshift. cbn [shr shr_m].
  replace (e <=? 1024 - 53)%Z with true by (symmetry; apply Z.leb_le; lia).
  reflexivity.
Qed.

(** The float of a non-zero integer below 2^53 rounds back to it. *)
Lemma binary_round_integer (s : bool) (p : positive) :
  (Zpos p < 2 ^ 53)%Z ->
  exists m e,
    binary_round 53 1024 s p 0 = S754_finite s m e
    /\ round_half_even m e = Zpos p.
Proof.
  intros Hp. pose proof (digits2_pos_le_53 p Hp) as Hd.
  unfold binary_round, shl_align.
  replace (fexp 53 1024 (Zpos (digits2_pos p) + 0))
    with (Zpos (digits2_pos p) - 53)%Z by (unfold fexp, emin; lia).
  destruct (Zpos (digits2_pos p) - 53 - 0)%Z as [| k | k] eqn:Ek.
  - exists p, 0%Z. split; [|reflexivity].
    apply binary_round_aux_53; lia.
  - lia.
  - exists (Pos.iter xO p k), (Zpos (digits2_pos p) - 53)%Z. split.
    + apply binary_round_aux_53; [rewrite digits2_pos_shift|]; lia.
    + replace (Zpos (digits2_pos p) - 53)%Z with (Zneg k) by lia.
      cbn [round_half_even]. rewrite Zpos_shift.
      rewrite Z.div_mul, Z.mod_mul by lia.
      assert (H2 : (0 < 2 ^ Zpos k)%Z) by (apply Z.pow_pos_nonneg; lia).
      assert (Hc : (2 * 0 ?= 2 ^ Zpos k)%Z = Lt) by (apply Z.compare_lt_iff; lia).
      now rewrite Hc.
Qed.

(** [format(n, ",.0f")] of such an integer: its sign and its digits. *)
Lemma format_integer (n : Z) :
  n <> 0%Z -> (Z.abs n < 2 ^ 53)%Z ->
  float_value (PInt n) = Some (float_of_Z n)
  /\ format_comma0 (float_of_Z n) =
     sign_str (n <? 0)%Z ++ group_thousands (decimal_of_Z (Z.abs n)).
Proof.
  intros Hn Hb. unfold float_value, float_of_Z, binary_normalize.
  destruct n as [| p | p]; [contradiction | |].
  - destruct (binary_round_integer false p Hb) as (m & e & -> & Hr).
    split; [reflexivity|]. cbn [format_comma0 Z.abs Z.ltb Z.compare]. now rewrite Hr.
  - destruct (binary_round_integer true p Hb) as (m & e & -> & Hr).
    split; [reflexivity|]. cbn [format_comma0 Z.abs Z.ltb Z.compare]. now rewrite Hr.
Qed.

Section ExactTotals.

Variable r : pyval -> string.

(** X19.  For an integer investment [n] that is not zero and whose absolute
    value is below 2^53, the funding total shows [n] exactly, with its sign
    and its digits grouped by three: after ["$"] in the full report, before
    [" THB"] in the fallback report.  A negative investment is not
    rejected. *)
Theorem integer_investment_total_is_exact
  (bd sp : dict) (w : world) (n : Z) (o : outcome) :
  profile_investment bd = PInt n ->
  n <> 0%Z ->
  (Z.abs n < 2 ^ 53)%Z ->
  service_answer w (analyze_financial_aspects r bd sp) = Some o ->
  let amount := sign_str (n <? 0)%Z ++ group_thousands (decimal_of_Z (Z.abs n)) in
  exists R,
    outcome_of w (analyze_financial_aspects r bd sp) = Returned R
    /\ at_path [Key "funding_requirements"; Key "initial_investment"; Key "total"] R =
       Some (PStr match o with
                  | Completed _ => "$" ++ amount
                  | Failed _ => amount ++ " THB"
                  end).
Proof.
  intros Hv Hn Hb Hans. cbv zeta.
  destruct (format_integer n Hn Hb) as [Hx Hfmt].
  destruct (analyze_called r bd sp w o Hans) as (x & Hx' & Hout).
  rewrite Hv, Hx in Hx'. injection Hx' as <-.
  assert (Ht : truthy (profile_investment bd) = true).
  { rewrite Hv. cbn [truthy]. now apply negb_true_iff, Z.eqb_neq. }
  rewrite <- Hv in Hx.
  destruct o as [text | e].
  - destruct (full_report_truthy r (profile_name bd) (profile_type bd)
                (profile_industry bd) (profile_investment bd) _ text Hx Ht)
      as (R & HR & Hleaves & _).
    exists R. split; [exact (Hout R HR)|]. rewrite <- Hfmt.
    named_leaf Hleaves
      (mkLeaf [Key "funding_requirements"; Key "initial_investment"; Key "total"]
              None "").
  - destruct (fallback_report_truthy r (profile_name bd) (profile_type bd)
                (profile_investment bd) _ Hx Ht) as (F & HF & Hleaves & _).
    exists F. split; [exact (Hout F HF)|]. rewrite <- Hfmt.
    named_leaf Hleaves
      (mkLeaf [Key "funding_requirements"; Key "initial_investment"; Key "total"]
              None "").
Qed.

End ExactTotals.

(* ================================================================== *)
(** ** The text of the prompt *)

Lemma append_assoc (a b c : string) : (a ++ b) ++ c = a ++ b ++ c.
Proof. induction a as [|x a IH]; simpl; [reflexivity | now rewrite IH]. Qed.

(** A text found in [s] is found in [a ++ s]. *)
Lemma found_after (a s mid : string) :
  (exists pre post, s = pre ++ mid ++ post) ->
  exists pre post, a ++ s = pre ++ mid ++ post.
Proof.
  intros (pre & post & ->). exists (a ++ pre), post. now rewrite append_assoc.
Qed.

Lemma Ret_inj {A : Type} (a b : A) : Ret a = Ret b -> a = b.
Proof. intros H. now inversion H. Qed.

Section Prompt.

Variable r : pyval -> string.

(** The two guards of the source are text of the prompt. *)
Lemma prompt_text (bd sp : dict) (p : string) (x : spec_float) :
  prompt_of r bd sp = Ret p ->
  float_value (profile_investment bd) = Some x ->
  exists pre post,
    p = pre
        ++ ("- Initial Investment: $" ++ format_comma0 x ++ dquote
            ++ " if initial_investment else " ++ dquote ++ "Not specified" ++ dquote
            ++ "
        - Team Size: " ++ py_str r (dict_get bd "team_size" PNone) ++ " employees"
            ++ dquote ++ " if team_size else " ++ dquote ++ "Not specified" ++ dquote)
        ++ post.
Proof.
  intros Hp Hx. revert Hp. unfold prompt_of, analysis_prompt.
  rewrite (py_format_number _ _ Hx). cbn [bind].
  destruct (py_join_cases ", " (dict_get bd "growth_goals" (PList [])))
    as [[g ->] | [e ->]]; cbn [bind]; [|discriminate].
  destruct (dict_get sp "growth_strategy" (PDict [])); try discriminate.
  cbn [py_get bind]. intros H. apply Ret_inj in H. subst p.
  do 16 apply found_after.
  exists "
        ". eexists.
  rewrite !append_assoc. reflexivity.
Qed.

(** X20.  Whenever the analysis calls the service, the prompt it sends holds
    the two guards of the source as literal text: after the formatted
    investment comes [" if initial_investment else "Not specified"], and the
    next line reads the team size ([None] when absent) followed by
    [ employees" if team_size else "Not specified"]. *)
Theorem prompt_keeps_both_guards_as_text (bd sp : dict) (w : world) (o : outcome) :
  service_answer w (analyze_financial_aspects r bd sp) = Some o ->
  exists req x pre post,
    calls_of w (analyze_financial_aspects r bd sp) = [req]
    /\ float_value (profile_investment bd) = Some x
    /\ chat_user req =
       pre
       ++ ("- Initial Investment: $" ++ format_comma0 x ++ dquote
           ++ " if initial_investment else " ++ dquote ++ "Not specified" ++ dquote
           ++ "
        - Team Size: " ++ py_str r (dict_get bd "team_size" PNone) ++ " employees"
           ++ dquote ++ " if team_size else " ++ dquote ++ "Not specified" ++ dquote)
       ++ post.
Proof.
  unfold service_answer, calls_of.
  destruct (prompt_of_cases r bd sp) as [(p & x & g & Hp & Hx & _) | (e & He & _)].
  2:{ rewrite (run_prompt_raises r bd sp w e He). discriminate. }
  intros _.
  destruct (prompt_text bd sp p x Hp Hx) as (pre & post & Hfound).
  destruct (run_prompt_built r bd sp w p x Hp Hx) as (R & HR & _).
  rewrite HR. cbn [snd].
  exists (analysis_request r bd p), x, pre, post.
  split; [reflexivity|]. split; [exact Hx | exact Hfound].
Qed.

End Prompt.

(* ================================================================== *)
(** ** The claims on sample requests *)

(** The literals are the doubles nearest to the decimals of the source. *)
Example float_literals :
  f0_8 = S754_finite false 7205759403792794 (-53)
  /\ f0_5 = S754_finite false 4503599627370496 (-53)
  /\ f0_005 = S754_finite false 5764607523034235 (-60)
  /\ float_of_Z 20 = S754_finite false 5629499534213120 (-48).
Proof. repeat split; vm_compute; reflexivity. Qed.

(** Rounding to the nearest integer, ties to even, and grouping. *)
Example format_samples :
  format_comma0 (float_of_Z 1234567) = "1,234,567"
  /\ format_comma0 (float_lit 5 10) = "0"
  /\ format_comma0 (float_lit 15 10) = "2"
  /\ format_comma0 (float_lit 25 10) = "2"
  /\ format_comma0 (float_lit (-3) 10) = "-0"
  /\ format_comma0 (float_mul (float_of_Z 100000) f0_028) = "2,800".
Proof. repeat split; vm_compute; reflexivity. Qed.

(** The two tiers at an investment of 100000. *)
Example cafe_tiers :
  (exists R,
     outcome_of service_up (analyze_financial_aspects sample_repr cafe_100000 []) =
     Returned R
     /\ at_path [Key "financial_projections"; Key "revenue_forecast"; Key "year_1"] R =
        Some (PStr "$80,000")
     /\ at_path [Key "cost_structure"; Key "fixed_costs"; Key "rent"] R =
        Some (PStr "$2,000/month"))
  /\ (exists F,
        outcome_of service_down (analyze_financial_aspects sample_repr cafe_100000 []) =
        Returned F
        /\ at_path [Key "financial_projections"; Key "revenue_forecast"; Key "year_1"] F =
           Some (PStr "50,000 THB")
        /\ at_path [Key "funding_requirements"; Key "initial_investment"; Key "total"] F =
           Some (PStr "100,000 THB")).
Proof.
  split; eexists; (split; [vm_compute; reflexivity|]); split; vm_compute; reflexivity.
Qed.

(** The sample standard output on lines with surrogates and without. *)
Example utf8_stdout_samples :
  utf8_stdout "   Task Type: financial_review" = None
  /\ utf8_stdout "   Business: Café 🤖" = None
  /\ utf8_stdout ("   Task Type: " ++ lone_surrogate) =
     Some (UnicodeEncodeError
             "'utf-8' codec can't encode character '\ud800' in position 14: surrogates not allowed")
  /\ utf8_stdout ("a" ++ lone_surrogate ++ lone_surrogate ++ "b") =
     Some (UnicodeEncodeError
             "'utf-8' codec can't encode characters in position 1-2: surrogates not allowed")
  /\ chars ("é" ++ lone_surrogate ++ "b") = ["é"; lone_surrogate; "b"].
Proof. repeat split; vm_compute; reflexivity. Qed.

(** A [parameters] string that standard output cannot encode: the endpoint
    answers failed where the same task with an empty mapping completes. *)
Example unencodable_parameters_are_answered_failed :
  (exists m,
     run service_up
       (execute_automated_task sample_repr
          (mkRequest (inr (PDict (audit_task (PStr lone_surrogate)))))) =
     (Returned m, [])
     /\ at_path [Key "status"] m = Some (PStr "failed"))
  /\ (exists m,
        run service_up
          (execute_automated_task sample_repr
             (mkRequest (inr (PDict (audit_task (PDict [])))))) =
        (Returned m, [])
        /\ at_path [Key "status"] m = Some (PStr "completed")).
Proof.
  split; eexists; (split; [vm_compute; reflexivity|]); reflexivity.
Qed.

(** C3, counterexample.  With [initial_investment] present and equal to 0
    and a failing service, [year_1] of the fallback report is the
    placeholder, not 0 times 0.5 formatted. *)
Lemma fallback_of_zero_investment_is_placeholder :
  dict_lookup "initial_investment" cafe_zero = Some (PInt 0)
  /\ exists F,
       outcome_of service_down (analyze_financial_aspects sample_repr cafe_zero []) =
       Returned F
       /\ at_path [Key "financial_projections"; Key "revenue_forecast"; Key "year_1"] F =
          Some (PStr "To be determined")
       /\ at_path [Key "financial_projections"; Key "revenue_forecast"; Key "year_1"] F <>
          Some (PStr (format_comma0 (float_mul (float_of_Z 0) f0_5) ++ " THB")).
Proof.
  split; [reflexivity|].
  eexists. split; [vm_compute; reflexivity|].
  split; [vm_compute; reflexivity | vm_compute; discriminate].
Qed.

(** C5, counterexample.  For the cafe message with an investment of 100000
    and a failing service, the returned [financial_analysis] has no
    [ai_analysis] holding a non-empty string. *)
Lemma cafe_fallback_has_no_narrative :
  ~ (exists resp s,
       outcome_of service_down (receive_message sample_repr (message_for cafe_100000)) =
       Returned (Http200 resp)
       /\ at_path [Key "ai_analysis"] (financial_analysis resp) = Some (PStr s)
       /\ s <> "").
Proof.
  intros (resp & s & H & Hai & _).
  vm_compute in H. injection H as <-.
  vm_compute in Hai. discriminate.
Qed.

(** C9, counterexample.  With [initial_investment] present and equal to 0
    and a service that answers, [year_1] of the full report is the
    placeholder and does not start with ["$"]. *)
Lemma zero_investment_has_no_currency :
  dict_lookup "initial_investment" cafe_zero = Some (PInt 0)
  /\ exists R,
       outcome_of service_up (analyze_financial_aspects sample_repr cafe_zero []) =
       Returned R
       /\ at_path [Key "financial_projections"; Key "revenue_forecast"; Key "year_1"] R =
          Some (PStr "To be determined")
       /\ ~ (exists s,
               at_path [Key "financial_projections"; Key "revenue_forecast";
                        Key "year_1"] R = Some (PStr ("$" ++ s))).
Proof.
  split; [reflexivity|].
  eexists. split; [vm_compute; reflexivity|].
  split; [vm_compute; reflexivity|].
  intros [s H]. vm_compute in H. discriminate.
Qed.


(* ------------------------------------------------------------------ *)
(** The theorems at work. *)

Lemma no_report_witness :
  profile_investment cafe_no_investment = PNone
  /\ forall R,
       outcome_of service_up
         (analyze_financial_aspects sample_repr cafe_no_investment []) <> Returned R.
Proof.
  split; [reflexivity|].
  apply (no_report_without_investment sample_repr cafe_no_investment []
           service_up). reflexivity.
Defined.

Lemma analysis_raises_witness :
  profile_investment cafe_no_investment = PNone
  /\ run service_down (analyze_financial_aspects sample_repr cafe_no_investment []) =
     (Raised (TypeError "unsupported format string passed to NoneType.__format__"),
      []).
Proof.
  split; [reflexivity|].
  apply (analysis_raises_without_investment sample_repr cafe_no_investment []
           service_down). reflexivity.
Defined.

Lemma fallback_report_witness :
  service_answer service_down
    (analyze_financial_aspects sample_repr cafe_100000 []) =
  Some (Failed (mkExn "APIConnectionError" "Connection refused"))
  /\ exists x F,
       float_value (profile_investment cafe_100000) = Some x
       /\ outcome_of service_down
            (analyze_financial_aspects sample_repr cafe_100000 []) = Returned F
       /\ fallback_shape "cafe" F.
Proof.
  assert (H : service_answer service_down
                (analyze_financial_aspects sample_repr cafe_100000 []) =
              Some (Failed (mkExn "APIConnectionError" "Connection refused")))
    by (vm_compute; reflexivity).
  split; [exact H|].
  destruct (fallback_report_on_failed_call sample_repr cafe_100000 [] service_down
              _ H) as (x & F & Hx & HF & Hshape & _).
  exists x, F. split; [exact Hx|]. split; [exact HF | exact Hshape].
Defined.

Lemma monetary_leaves_witness :
  positive_number (profile_investment cafe_100000) = true
  /\ exists x R,
       float_value (profile_investment cafe_100000) = Some x
       /\ outcome_of service_up
            (analyze_financial_aspects sample_repr cafe_100000 []) = Returned R
       /\ at_path [Key "financial_projections"; Key "revenue_forecast"; Key "year_1"] R =
          Some (PStr ("$" ++ format_comma0 (float_mul x f0_8))).
Proof.
  split; [reflexivity|].
  assert (H : service_answer service_up
                (analyze_financial_aspects sample_repr cafe_100000 []) =
              Some (Completed "Projected revenue grows steadily."))
    by (vm_compute; reflexivity).
  destruct (monetary_leaves_scale_the_investment sample_repr cafe_100000 []
              service_up _ eq_refl H) as (x & R & Hx & HR & Hy1 & _).
  exists x, R. split; [exact Hx|]. split; [exact HR | exact Hy1].
Defined.

Lemma investment_100000_witness :
  profile_investment (business_data (message_for cafe_100000)) = PInt 100000
  /\ exists resp,
       outcome_of service_up (receive_message sample_repr (message_for cafe_100000)) =
       Returned (Http200 resp)
       /\ at_path [Key "funding_requirements"; Key "initial_investment"; Key "total"]
                  (financial_analysis resp) = Some (PStr "$100,000")
       /\ at_path [Key "ai_analysis"] (financial_analysis resp) =
          Some (PStr "Projected revenue grows steadily.").
Proof.
  split; [reflexivity|].
  assert (H : service_answer service_up
                (receive_message sample_repr (message_for cafe_100000)) =
              Some (Completed "Projected revenue grows steadily."))
    by (vm_compute; reflexivity).
  exact (proj1 (investment_100000_total_and_narrative sample_repr
                  (message_for cafe_100000) service_up eq_refl) _ H).
Defined.


Lemma execute_task_raises_witness :
  is_dict (PList []) = false
  /\ run service_up (execute_automated_task sample_repr (mkRequest (inr (PList [])))) =
     (Raised (AttributeError "'list' object has no attribute 'get'"), []).
Proof.
  split; [reflexivity|].
  apply (execute_task_raises_on_non_object sample_repr (PList []) service_up).
  reflexivity.
Defined.

Lemma task_error_handler_witness :
  is_dict (PInt 7) = false
  /\ task_error (Some (PInt 7)) (mkExn "AttributeError" "no get") =
     Raise (AttributeError "'int' object has no attribute 'get'").
Proof.
  split; [reflexivity|].
  apply (task_error_handler_raises_on_non_object (PInt 7)). reflexivity.
Defined.

Lemma two_currency_formats_witness :
  truthy (profile_investment cafe_100000) = true
  /\ exists x F,
       float_value (profile_investment cafe_100000) = Some x
       /\ outcome_of service_down
            (analyze_financial_aspects sample_repr cafe_100000 []) = Returned F
       /\ Forall (fun l =>
                    at_path (leaf_path l) F =
                    Some (PStr (format_comma0 (scaled x l) ++ " THB"))
                    /\ no_dollar (format_comma0 (scaled x l) ++ " THB") = true)
                 fallback_leaves.
Proof.
  split; [reflexivity|].
  assert (H : service_answer service_down
                (analyze_financial_aspects sample_repr cafe_100000 []) =
              Some (Failed (mkExn "APIConnectionError" "Connection refused")))
    by (vm_compute; reflexivity).
  exact (proj2 (two_currency_formats sample_repr cafe_100000 [] service_down eq_refl)
           _ H).
Defined.

Lemma parameters_never_read_witness :
  (forall k, k <> "parameters" ->
             dict_lookup k (audit_task (PDict [])) =
             dict_lookup k (audit_task (PDict [("depth", PInt 3)])))
  /\ handle_task sample_repr (PDict (audit_task (PDict []))) =
     handle_task sample_repr (PDict (audit_task (PDict [("depth", PInt 3)])))
  /\ refused service_up
       (execute_automated_task sample_repr
          (mkRequest (inr (PDict (audit_task (PDict [])))))) = None
  /\ refused service_up
       (execute_automated_task sample_repr
          (mkRequest (inr (PDict (audit_task (PDict [("depth", PInt 3)])))))) = None
  /\ run service_up
       (execute_automated_task sample_repr
          (mkRequest (inr (PDict (audit_task (PDict [])))))) =
     run service_up
       (execute_automated_task sample_repr
          (mkRequest (inr (PDict (audit_task (PDict [("depth", PInt 3)])))))).
Proof.
  assert (H : forall k, k <> "parameters" ->
                dict_lookup k (audit_task (PDict [])) =
                dict_lookup k (audit_task (PDict [("depth", PInt 3)]))).
  { intros k Hk. unfold audit_task. cbn [dict_lookup].
    destruct (String.eqb k "task_type"); [reflexivity|].
    destruct (String.eqb k "business_name"); [reflexivity|].
    destruct (String.eqb k "parameters") eqn:E; [|reflexivity].
    apply String.eqb_eq in E. contradiction. }
  assert (H1 : refused service_up
                 (execute_automated_task sample_repr
                    (mkRequest (inr (PDict (audit_task (PDict [])))))) = None)
    by (vm_compute; reflexivity).
  assert (H2 : refused service_up
                 (execute_automated_task sample_repr
                    (mkRequest
                       (inr (PDict (audit_task (PDict [("depth", PInt 3)])))))) =
               None)
    by (vm_compute; reflexivity).
  destruct (parameters_never_read sample_repr PNone PNone PNone PNone
              _ _ service_up H) as (_ & _ & Hsame & Hrun).
  split; [exact H|]. split; [exact Hsame|]. split; [exact H1|].
  split; [exact H2 | exact (Hrun H1 H2)].
Defined.

(* ------------------------------------------------------------------ *)
(** The further properties at work. *)

Lemma missing_investment_witness :
  profile_investment (business_data (message_for cafe_no_investment)) = PNone
  /\ run service_up (receive_message sample_repr (message_for cafe_no_investment)) =
     (Returned (HTTPException 500
        "Financial analysis failed: unsupported format string passed to NoneType.__format__"),
      []).
Proof.
  split; [reflexivity|].
  apply (missing_investment_is_answered_500 sample_repr
           (message_for cafe_no_investment) service_up).
  reflexivity.
Defined.

Lemma text_investment_witness :
  profile_investment cafe_text_investment = PStr "100000"
  /\ run service_up (analyze_financial_aspects sample_repr cafe_text_investment []) =
     (Raised (ValueError "Unknown format code 'f' for object of type 'str'"), []).
Proof.
  split; [reflexivity|].
  apply (text_investment_raises_value_error sample_repr cafe_text_investment []
           service_up "100000").
  reflexivity.
Defined.

Lemma mixed_growth_goals_witness :
  float_value (profile_investment cafe_mixed_goals) = Some (float_of_Z 100000)
  /\ dict_get cafe_mixed_goals "growth_goals" (PList []) =
     PList (map PStr ["open a second shop"] ++ [PInt 5])
  /\ run service_up (analyze_financial_aspects sample_repr cafe_mixed_goals []) =
     (Raised (TypeError "sequence item 1: expected str instance, int found"), []).
Proof.
  split; [reflexivity|]. split; [reflexivity|].
  apply (mixed_growth_goals_raise_type_error sample_repr cafe_mixed_goals []
           service_up (float_of_Z 100000) ["open a second shop"] (PInt 5) []).
  - reflexivity.
  - reflexivity.
  - intros s H. discriminate H.
Defined.

Lemma null_growth_strategy_witness :
  dict_lookup "growth_strategy" plan_with_null_strategy = Some PNone
  /\ run service_up
       (analyze_financial_aspects sample_repr cafe_100000 plan_with_null_strategy) =
     (Raised (AttributeError "'NoneType' object has no attribute 'get'"), []).
Proof.
  split; [reflexivity|].
  apply (non_mapping_growth_strategy_raises sample_repr cafe_100000
           plan_with_null_strategy service_up (float_of_Z 100000) "" PNone).
  - reflexivity.
  - reflexivity.
  - reflexivity.
  - reflexivity.
Defined.

Lemma report_depends_witness :
  profile_investment cafe_100000 = profile_investment cafe_in_bangkok
  /\ outcome_of service_down (analyze_financial_aspects sample_repr cafe_100000 []) =
     outcome_of (mkWorld (fun _ => Failed (mkExn "Timeout" "Request timed out"))
                   "2025-01-01T00:00:00" utf8_stdout)
       (analyze_financial_aspects sample_repr cafe_in_bangkok plan_with_goals).
Proof.
  split; [reflexivity|].
  apply (report_depends_on_four_fields_and_the_answer sample_repr
           cafe_100000 cafe_in_bangkok [] plan_with_goals service_down
           (mkWorld (fun _ => Failed (mkExn "Timeout" "Request timed out"))
              "2025-01-01T00:00:00" utf8_stdout)
           (Failed (mkExn "APIConnectionError" "Connection refused"))
           (Failed (mkExn "Timeout" "Request timed out"))).
  - reflexivity.
  - reflexivity.
  - reflexivity.
  - reflexivity.
  - vm_compute. reflexivity.
  - vm_compute. reflexivity.
  - reflexivity.
Defined.

Lemma report_echoes_witness :
  service_answer service_up
    (analyze_financial_aspects sample_repr cafe_in_bangkok plan_with_goals) =
  Some (Completed "Projected revenue grows steadily.")
  /\ exists R,
       outcome_of service_up
         (analyze_financial_aspects sample_repr cafe_in_bangkok plan_with_goals) =
       Returned R
       /\ at_path [Key "business_name"] R = Some (PStr "")
       /\ at_path [Key "business_type"] R = Some (PStr "cafe")
       /\ at_path [Key "ai_analysis"] R =
          Some (PStr "Projected revenue grows steadily.").
Proof.
  assert (H : service_answer service_up
                (analyze_financial_aspects sample_repr cafe_in_bangkok
                   plan_with_goals) =
              Some (Completed "Projected revenue grows steadily."))
    by (vm_compute; reflexivity).
  split; [exact H|].
  exact (report_echoes_name_type_and_narrative sample_repr cafe_in_bangkok
           plan_with_goals service_up _ H).
Defined.

Lemma zero_investment_witness :
  truthy (profile_investment cafe_zero) = false
  /\ exists x R,
       float_value (profile_investment cafe_zero) = Some x
       /\ outcome_of service_up (analyze_financial_aspects sample_repr cafe_zero []) =
          Returned R
       /\ Forall (fun l => at_path (leaf_path l) R = Some (PStr "To be determined"))
                 (monetary_leaves "cafe").
Proof.
  split; [reflexivity|].
  assert (H : service_answer service_up
                (analyze_financial_aspects sample_repr cafe_zero []) =
              Some (Completed "Projected revenue grows steadily."))
    by (vm_compute; reflexivity).
  destruct (zero_investment_gives_placeholders sample_repr cafe_zero [] service_up
              _ eq_refl H) as (x & R & Hx & HR & Hleaves & _).
  exists x, R. split; [exact Hx|]. split; [exact HR | exact Hleaves].
Defined.

Lemma investment_changes_witness :
  profile_investment cafe_100000 <> profile_investment cafe_zero
  /\ exists R1 R2,
       outcome_of service_up (analyze_financial_aspects sample_repr cafe_100000 []) =
       Returned R1
       /\ outcome_of service_up (analyze_financial_aspects sample_repr cafe_zero []) =
          Returned R2
       /\ Forall (fun p => at_path p R1 = at_path p R2) (non_monetary_paths "cafe").
Proof.
  split; [discriminate|].
  apply (investment_changes_only_the_amounts sample_repr cafe_100000 cafe_zero [] []
           service_up service_up "Projected revenue grows steadily.").
  - reflexivity.
  - reflexivity.
  - reflexivity.
  - vm_compute. reflexivity.
  - vm_compute. reflexivity.
Defined.



Lemma integer_total_witness :
  profile_investment (cafe [("initial_investment", PInt (-2500000))]) =
  PInt (-2500000)
  /\ exists R,
       outcome_of service_up
         (analyze_financial_aspects sample_repr
            (cafe [("initial_investment", PInt (-2500000))]) []) = Returned R
       /\ at_path [Key "funding_requirements"; Key "initial_investment"; Key "total"] R =
          Some (PStr "$-2,500,000").
Proof.
  split; [reflexivity|].
  assert (H : service_answer service_up
                (analyze_financial_aspects sample_repr
                   (cafe [("initial_investment", PInt (-2500000))]) []) =
              Some (Completed "Projected revenue grows steadily."))
    by (vm_compute; reflexivity).
  assert (Hb : (Z.abs (-2500000) < 2 ^ 53)%Z) by (vm_compute; reflexivity).
  assert (Hn : (-2500000)%Z <> 0%Z) by discriminate.
  exact (integer_investment_total_is_exact sample_repr
           (cafe [("initial_investment", PInt (-2500000))]) [] service_up
           (-2500000)%Z _ eq_refl Hn Hb H).
Defined.

Lemma prompt_guards_witness :
  service_answer service_up
    (analyze_financial_aspects sample_repr cafe_100000 []) =
  Some (Completed "Projected revenue grows steadily.")
  /\ exists req pre post,
       calls_of service_up (analyze_financial_aspects sample_repr cafe_100000 []) =
       [req]
       /\ chat_user req =
          pre
          ++ ("- Initial Investment: $100,000" ++ dquote
              ++ " if initial_investment else " ++ dquote ++ "Not specified" ++ dquote
              ++ "
        - Team Size: None employees"
              ++ dquote ++ " if team_size else " ++ dquote ++ "Not specified" ++ dquote)
          ++ post.
Proof.
  assert (H : service_answer service_up
                (analyze_financial_aspects sample_repr cafe_100000 []) =
              Some (Completed "Projected revenue grows steadily."))
    by (vm_compute; reflexivity).
  split; [exact H|].
  destruct (prompt_keeps_both_guards_as_text sample_repr cafe_100000 [] service_up
              _ H) as (req & x & pre & post & Hc & Hx & Hu).
  exists req, pre, post. split; [exact Hc|].
  vm_compute in Hx. injection Hx as <-. exact Hu.
Defined.
